(** * generate_architecture.py: the Sock Shop architecture diagram

    The script declares a fixed graph of nodes, clusters and edges through
    the [diagrams] package and asks it to render one image.  The package is
    an external dependency of the script; the part of its behaviour the
    script relies on (context managers, node and edge construction, the
    [>>] operator, the default file name, rendering at the end of the
    [with Diagram] block) is modelled in [Module diagrams] below, as a
    state-and-exception monad over an explicit process state.  The script
    itself is [create_architecture_diagram] and [run_module]. *)

From Stdlib Require Import List String Ascii NArith Bool Arith Lia.
Import ListNotations.
Set Warnings "-register-all".
Local Open Scope string_scope.
Local Open Scope list_scope.

(** ** Python [str] operations used by the package

    A string stands for the Python [str] whose code points are its
    characters, one for one; the strings of the model are thus the texts
    with code points below 256, which include every literal of the
    script. *)
Module PyStr.

(** [str.isspace] on one character, which is also what [str.split]
    separates at: the blank, U+0009 to U+000D, U+001C to U+001F, U+0085
    and U+00A0. *)
Definition isspace (c : ascii) : bool :=
  let n := nat_of_ascii c in
  ((n =? 32) || ((9 <=? n) && (n <=? 13)) || ((28 <=? n) && (n <=? 31))
   || (n =? 133) || (n =? 160))%nat.

(** [str.lower] on one character: the letters A to Z and U+00C0 to U+00DE
    other than the multiplication sign U+00D7 move up by 32. *)
Definition lower_char (c : ascii) : ascii :=
  let n := nat_of_ascii c in
  if (((65 <=? n) && (n <=? 90))
      || ((192 <=? n) && (n <=? 222) && negb (n =? 215)))%nat
  then ascii_of_nat (n + 32) else c.

(** [str.upper] on one character: the letters a to z and U+00E0 to U+00FE
    other than the division sign U+00F7 move down by 32.  The upper-case
    forms of U+00B5, U+00DF and U+00FF lie outside the strings of the
    model; these three are left as they are, which no comparison with a
    word of ASCII letters can tell apart. *)
Definition upper_char (c : ascii) : ascii :=
  let n := nat_of_ascii c in
  if (((97 <=? n) && (n <=? 122))
      || ((224 <=? n) && (n <=? 254) && negb (n =? 247)))%nat
  then ascii_of_nat (n - 32) else c.

(** [str.lower] *)
Fixpoint lower (s : string) : string :=
  match s with
  | EmptyString => EmptyString
  | String c s' => String (lower_char c) (lower s')
  end.

Definition flush (cur : string) (k : list string) : list string :=
  match cur with
  | EmptyString => k
  | _ => cur :: k
  end.

(** [str.split()] without arguments: maximal runs of non-space characters.
    [cur] is the word being read. *)
Fixpoint split_from (cur : string) (s : string) : list string :=
  match s with
  | EmptyString => flush cur []
  | String c s' =>
      if isspace c then flush cur (split_from EmptyString s')
      else split_from (cur ++ String c EmptyString)%string s'
  end.

Definition split (s : string) : list string := split_from EmptyString s.

(** [sep.join(words)]. *)
Definition join (sep : string) (words : list string) : string :=
  String.concat sep words.

(** Character-wise rewriting of a string. *)
Fixpoint map_chars (f : ascii -> ascii) (s : string) : string :=
  match s with
  | EmptyString => EmptyString
  | String c s' => String (f c) (map_chars f s')
  end.

(** [str.upper], see [upper_char]. *)
Definition upper (s : string) : string := map_chars upper_char s.

(** Truth value of a string: non-empty. *)
Definition truthy (s : string) : bool :=
  match s with EmptyString => false | _ => true end.

(** Line feed, written [\n] in the script's literals. *)
Definition LF : string := String "010"%char EmptyString.

End PyStr.

(** ** The [diagrams] package, as far as the script uses it *)
Module diagrams.

(** Node classes imported by the script (lines 8-17), named by module path. *)
Inductive NodeClass : Set :=
  | aws_compute_EKS | aws_compute_EC2
  | aws_network_ALB | aws_network_VPC | aws_network_Route53
  | aws_security_CertificateManager
  | k8s_compute_Pod | k8s_compute_Deployment
  | k8s_network_Service | k8s_network_Ingress
  | onprem_database_MongoDB | onprem_database_MySQL
  | onprem_inmemory_Redis
  | onprem_queue_RabbitMQ
  | onprem_monitoring_Prometheus | onprem_monitoring_Grafana
  | onprem_client_Users.

(** A node object: its identifier ([uuid4().hex], a 128-bit number), its
    label and its class. *)
Record node : Set := mkNode {
  n_id : N;
  n_label : string;
  n_class : NodeClass
}.

(** The [dir] attribute computed by [Edge.attrs] from [forward]/[reverse]. *)
Inductive Dir : Set := dir_none | dir_forward | dir_back | dir_both.

(** An edge object.  [e_node] is the node the edge hangs on once
    [node >> edge] has been evaluated; the three optional attributes are
    stored only when the keyword argument is a non-empty string. *)
Record edge : Set := mkEdge {
  e_node : option node;
  e_forward : bool;
  e_reverse : bool;
  e_label : option string;
  e_color : option string;
  e_style : option string
}.

(** The attributes an edge statement receives. *)
Record edge_attrs : Set := mkAttrs {
  a_label : option string;
  a_color : option string;
  a_style : option string;
  a_dir : Dir
}.

Definition attrs (e : edge) : edge_attrs :=
  mkAttrs (e_label e) (e_color e) (e_style e)
    (if e_forward e && e_reverse e then dir_both
     else if e_forward e then dir_forward
     else if e_reverse e then dir_back
     else dir_none).

(** Statements of the graph handed to Graphviz.  A cluster is a subgraph
    named [cluster_<label>]. *)
Inductive stmt : Set :=
  | SNode (id : N) (label : string) (cls : NodeClass)
  | SEdge (tail head : N) (a : edge_attrs)
  | SSubgraph (label : string) (body : list stmt).

(** A diagram object. *)
Record diagram : Set := mkDiagram {
  d_name : string;
  d_filename : string;
  d_direction : string;
  d_outformat : string;
  d_show : bool;
  d_body : list stmt
}.

Inductive Exn : Set :=
  | EnvironmentError (msg : string)
  | ValueError (msg : string)
  | AttributeError (msg : string)
  | TypeError (msg : string)
  | BackendError (msg : string).

(** What the process does that can be observed from outside, in order. *)
Inductive event : Set :=
  | EvDiagram (name : string) (show : bool) (direction : string)
  | EvClusterEnter (label : string)
  | EvClusterExit (label : string)
  | EvNode (n : node)
  | EvConnect (src dst : node) (a : edge_attrs)
  | EvRender (d : diagram)
  | EvView (file : string)
  | EvWrite (file : string)
  | EvPrint (line : string)
  | EvRemove (file : string).

(** The outside of the process.  The script consults none of [argv] and
    [environ]; the package draws node identifiers from [uuid4] and hands
    the finished graph to the rendering backend [dot_render], which either
    succeeds ([None]) or raises. *)
Record World : Type := mkWorld {
  argv : list string;
  environ : list (string * string);
  uuid4 : nat -> N;
  dot_render : diagram -> option Exn
}.

(** The process state: the package's two context variables (the current
    diagram and the stack of open clusters, innermost first, each with the
    statements collected so far), the number of identifiers drawn, standard
    output, the names of the files on disk, and the trace. *)
Record State : Type := mkState {
  ctx_diagram : option diagram;
  ctx_cluster : list (string * list stmt);
  uuid_calls : nat;
  stdout : list string;
  files : list string;
  trace : list event
}.

Definition initial : State := mkState None [] 0 [] [] [].

Definition M (A : Type) : Type := World -> State -> State * (Exn + A).

Definition ret {A} (x : A) : M A := fun _ s => (s, inr x).

Definition bind {A B} (m : M A) (k : A -> M B) : M B :=
  fun w s =>
    match m w s with
    | (s', inl e) => (s', inl e)
    | (s', inr x) => k x w s'
    end.

Definition raise {A} (e : Exn) : M A := fun _ s => (s, inl e).

Definition log (ev : event) (s : State) : State :=
  mkState (ctx_diagram s) (ctx_cluster s) (uuid_calls s) (stdout s) (files s)
          (trace s ++ [ev]).

Definition set_diagram (d : option diagram) (s : State) : State :=
  mkState d (ctx_cluster s) (uuid_calls s) (stdout s) (files s) (trace s).

Definition set_cluster (c : list (string * list stmt)) (s : State) : State :=
  mkState (ctx_diagram s) c (uuid_calls s) (stdout s) (files s) (trace s).

Notation "x <- m ;; k" := (bind m (fun x => k))
  (at level 61, m at next level, right associativity).
Notation "' pat <- m ;; k" := (bind m (fun x => match x with pat => k end))
  (at level 61, pat pattern, m at next level, right associativity).
Notation "m ;; k" := (bind m (fun _ => k))
  (at level 61, right associativity).

(** [for x in l: f(x)] *)
Fixpoint for_each {A} (l : list A) (f : A -> M unit) : M unit :=
  match l with
  | [] => ret tt
  | x :: l' => f x ;; for_each l' f
  end.

(** Appends a statement to the graph of the innermost open cluster, or to
    the diagram's own graph when no cluster is open.  Any statement is lost
    when there is no diagram. *)
Definition add_to_diagram (st : stmt) (s : State) : State :=
  match ctx_diagram s with
  | None => s
  | Some d =>
      set_diagram
        (Some (mkDiagram (d_name d) (d_filename d) (d_direction d)
                 (d_outformat d) (d_show d) (d_body d ++ [st]))) s
  end.

Definition add_to_context (st : stmt) (s : State) : State :=
  match ctx_cluster s with
  | [] => add_to_diagram st s
  | (l, body) :: outer => set_cluster ((l, body ++ [st]) :: outer) s
  end.

(** [Node.__init__]: draws the identifier, requires a diagram context, and
    adds the node to the current cluster if there is one, else to the
    diagram. *)
Definition Node (cls : NodeClass) (label : string) : M node :=
  fun w s =>
    let n := mkNode (uuid4 w (uuid_calls s)) label cls in
    let s1 := mkState (ctx_diagram s) (ctx_cluster s) (S (uuid_calls s))
                (stdout s) (files s) (trace s) in
    match ctx_diagram s1 with
    | None => (s1, inl (EnvironmentError "Global diagrams context not set up"))
    | Some _ =>
        (log (EvNode n) (add_to_context (SNode (n_id n) label cls) s1), inr n)
    end.

(** [with Cluster(label): body].  [__init__] requires a diagram context and
    remembers the enclosing cluster; [__enter__] makes the new cluster
    current; [__exit__] runs whether or not the body raised, adds the
    cluster's graph to its parent (the enclosing cluster, else the diagram)
    and makes the parent current again. *)
Definition Cluster_exit (s : State) : State :=
  match ctx_cluster s with
  | [] => s
  | (l, body) :: outer =>
      log (EvClusterExit l)
        (add_to_context (SSubgraph l body) (set_cluster outer s))
  end.

Definition with_Cluster {A} (label : string) (body : M A) : M A :=
  fun w s =>
    match ctx_diagram s with
    | None => (s, inl (EnvironmentError "Global diagrams context not set up"))
    | Some _ =>
        let s1 := log (EvClusterEnter label)
                    (set_cluster ((label, []) :: ctx_cluster s) s) in
        let '(s2, r) := body w s1 in
        (Cluster_exit s2, r)
    end.

(** Keyword arguments of [Edge(...)]. *)
Inductive edge_kwarg : Set :=
  | label (v : string) | color (v : string) | style (v : string).

Definition non_empty (v : string) : option string :=
  if PyStr.truthy v then Some v else None.

Definition edge_set (e : edge) (k : edge_kwarg) : edge :=
  match k with
  | label v => mkEdge (e_node e) (e_forward e) (e_reverse e)
                 (non_empty v) (e_color e) (e_style e)
  | color v => mkEdge (e_node e) (e_forward e) (e_reverse e)
                 (e_label e) (non_empty v) (e_style e)
  | style v => mkEdge (e_node e) (e_forward e) (e_reverse e)
                 (e_label e) (e_color e) (non_empty v)
  end.

(** [Edge(...)] with keyword arguments: no node yet, neither direction
    set. *)
Definition Edge (kwargs : list edge_kwarg) : edge :=
  fold_left edge_set kwargs (mkEdge None false false None None None).

(** [Edge(node, forward=True)], built by [Node.__rshift__]. *)
Definition forward_edge (n : node) : edge :=
  mkEdge (Some n) true false None None None.

(** [Node.connect] and with it [Diagram.connect]: an edge statement between
    the two identifiers, always on the diagram's own graph, never on a
    cluster's. *)
Definition connect (self other : node) (e : edge) : M node :=
  fun _ s =>
    (log (EvConnect self other (attrs e))
       (add_to_diagram (SEdge (n_id self) (n_id other) (attrs e)) s),
     inr other).

(** What can stand on either side of [>>]. *)
Inductive operand : Set :=
  | ONode (n : node)
  | OList (l : list node)
  | OEdge (e : edge).

Coercion ONode : node >-> operand.
Coercion OEdge : edge >-> operand.

(** [Node.__rshift__] *)
Definition Node_rshift (self : node) (other : operand) : M operand :=
  match other with
  | OList l =>
      for_each l (fun n => connect self n (forward_edge self) ;; ret tt) ;;
      ret (OList l)
  | ONode n =>
      r <- connect self n (forward_edge self) ;; ret (ONode r)
  | OEdge e =>
      ret (OEdge (mkEdge (Some self) true (e_reverse e)
                    (e_label e) (e_color e) (e_style e)))
  end.

(** [Edge.connect] *)
Definition Edge_connect (self : edge) (other : operand) : M operand :=
  match other with
  | OList l =>
      match e_node self with
      | None => raise (AttributeError "'NoneType' object has no attribute 'connect'")
      | Some src =>
          for_each l (fun n => connect src n self ;; ret tt) ;; ret (OList l)
      end
  | OEdge e' =>
      ret (OEdge (mkEdge (e_node self) (e_forward self) (e_reverse self)
                    (e_label e') (e_color e') (e_style e')))
  | ONode n =>
      match e_node self with
      | Some src => r <- connect src n self ;; ret (ONode r)
      | None =>
          ret (OEdge (mkEdge (Some n) (e_forward self) (e_reverse self)
                        (e_label self) (e_color self) (e_style self)))
      end
  end.

(** [Edge.__rshift__]: sets [forward], then connects. *)
Definition Edge_rshift (self : edge) (other : operand) : M operand :=
  Edge_connect (mkEdge (e_node self) true (e_reverse self)
                  (e_label self) (e_color self) (e_style self)) other.

(** [x >> y], dispatched on the class of [x].  A list on the left is not
    used by the script; the package's reflected operators are not
    modelled. *)
Definition rshift (x y : operand) : M operand :=
  match x with
  | ONode n => Node_rshift n y
  | OEdge e => Edge_rshift e y
  | OList _ => raise (TypeError "list >> ...: reflected operator not modelled")
  end.

(** [a >> b >> c] is [(a >> b) >> c]. *)
Definition rshift_chain (mx : M operand) (y : operand) : M operand :=
  x <- mx ;; rshift x y.

Definition py (x : operand) : M operand := ret x.

Notation "x >> y" := (rshift_chain x y) (at level 50, left associativity).

(** Keyword arguments of [Diagram(...)] and their defaults. *)
Inductive diagram_kwarg : Set :=
  | filename (v : string) | direction (v : string)
  | outformat (v : string) | show (v : bool).

Definition diagram_set (d : diagram) (k : diagram_kwarg) : diagram :=
  match k with
  | filename v => mkDiagram (d_name d) v (d_direction d) (d_outformat d) (d_show d) (d_body d)
  | direction v => mkDiagram (d_name d) (d_filename d) v (d_outformat d) (d_show d) (d_body d)
  | outformat v => mkDiagram (d_name d) (d_filename d) (d_direction d) v (d_show d) (d_body d)
  | show v => mkDiagram (d_name d) (d_filename d) (d_direction d) (d_outformat d) v (d_body d)
  end.

(** The file name when none is given: the words of the name joined by
    underscores, in lower case. *)
Definition default_filename (name : string) : string :=
  if PyStr.truthy name
  then PyStr.lower (PyStr.join "_" (PyStr.split name))
  else "diagrams_image".

Definition valid_direction (v : string) : bool :=
  existsb (String.eqb (PyStr.upper v)) ["TB"; "BT"; "LR"; "RL"].

Definition valid_outformat (v : string) : bool :=
  existsb (String.eqb (PyStr.lower v)) ["png"; "jpg"; "svg"; "pdf"; "dot"].

(** [Diagram.__init__]: the defaults are direction [LR], format [png] and
    [show] on; direction and format are validated. *)
Definition Diagram_init (name : string) (kwargs : list diagram_kwarg)
  : Exn + diagram :=
  let d0 := fold_left diagram_set kwargs
              (mkDiagram name EmptyString "LR" "png" true []) in
  let d := if PyStr.truthy (d_filename d0) then d0
           else diagram_set d0 (filename (default_filename name)) in
  if negb (valid_direction (d_direction d))
  then inl (ValueError "not a valid direction")
  else if negb (valid_outformat (d_outformat d))
  then inl (ValueError "not a valid output format")
  else inr d.

(** The image Graphviz writes for a diagram. *)
Definition image_file (d : diagram) : string :=
  (d_filename d ++ "." ++ d_outformat d)%string.

(** A file is written, and a file is removed ([os.remove]); [files] holds
    the names on disk. *)
Definition write_file (name : string) (s : State) : State :=
  log (EvWrite name)
    (mkState (ctx_diagram s) (ctx_cluster s) (uuid_calls s) (stdout s)
       (files s ++ [name]) (trace s)).

Definition os_remove (name : string) (s : State) : State :=
  log (EvRemove name)
    (mkState (ctx_diagram s) (ctx_cluster s) (uuid_calls s) (stdout s)
       (filter (fun f => negb (String.eqb f name)) (files s)) (trace s)).

(** [Diagram.render], called once by [Diagram.__exit__]: Graphviz first
    saves the source of the graph under the diagram's file name and then
    runs the backend on it; when the backend raises, the source stays
    behind; when it succeeds the image is on disk next to it (and is
    opened in a viewer when [show] is set). *)
Definition render (d : diagram) : M unit :=
  fun w s =>
    let s1 := write_file (d_filename d) (log (EvRender d) s) in
    match dot_render w d with
    | Some e => (s1, inl e)
    | None =>
        let s2 := write_file (image_file d) s1 in
        (if d_show d then log (EvView (image_file d)) s2 else s2, inr tt)
    end.

(** [with Diagram(name, ...): body].  [__enter__] installs the diagram
    as the context; [__exit__] runs whether or not the body raised: it
    renders, removes the Graphviz source and clears the context.
    [__exit__] returns nothing, so an exception of the body propagates
    after a successful rendering, and an exception of the rendering
    propagates in any case, before the source is removed. *)
Definition with_Diagram {A} (name : string) (kwargs : list diagram_kwarg)
    (body : M A) : M A :=
  fun w s =>
    match Diagram_init name kwargs with
    | inl e => (s, inl e)
    | inr d =>
        let s1 := set_diagram (Some d)
                    (log (EvDiagram name (d_show d) (d_direction d)) s) in
        let '(s2, r) := body w s1 in
        let d2 := match ctx_diagram s2 with Some d' => d' | None => d end in
        match render d2 w s2 with
        | (s3, inl e) => (s3, inl e)
        | (s3, inr _) =>
            (set_diagram None (os_remove (d_filename d2) s3), r)
        end
    end.

(** [print(line)] *)
Definition print (line : string) : M unit :=
  fun _ s =>
    (log (EvPrint line)
       (mkState (ctx_diagram s) (ctx_cluster s) (uuid_calls s)
          (stdout s ++ [line]) (files s) (trace s)),
     inr tt).

End diagrams.

(** ** The script *)

Import diagrams.

(** A literal with [\n] between its lines. *)
Definition lines (l : list string) : string := String.concat PyStr.LF l.

(** The classes imported on lines 7-17. *)
Definition EKS := Node aws_compute_EKS.
Definition EC2 := Node aws_compute_EC2.
Definition ALB := Node aws_network_ALB.
Definition VPC := Node aws_network_VPC.
Definition Route53 := Node aws_network_Route53.
Definition CertificateManager := Node aws_security_CertificateManager.
Definition Pod := Node k8s_compute_Pod.
Definition Deployment := Node k8s_compute_Deployment.
Definition Service := Node k8s_network_Service.
Definition Ingress := Node k8s_network_Ingress.
Definition MongoDB := Node onprem_database_MongoDB.
Definition MySQL := Node onprem_database_MySQL.
Definition Redis := Node onprem_inmemory_Redis.
Definition RabbitMQ := Node onprem_queue_RabbitMQ.
Definition Prometheus := Node onprem_monitoring_Prometheus.
Definition Grafana := Node onprem_monitoring_Grafana.
Definition Users := Node onprem_client_Users.

Definition title : string := "Sock Shop Microservices Architecture (improved)".

(** Lines 19-110.  A [with] block does not open a scope in Python: the
    names bound inside it stay visible afterwards, so each block hands them
    out as its value. *)
Definition create_architecture_diagram : M unit :=
  with_Diagram title [show false; direction "TB"] (
    users <- Users "Users" ;;
    in_aws <- with_Cluster "AWS Cloud" (
      route53 <- Route53 (lines ["Route53"; "sock.blessedc.org"; "(Managed by ExternalDNS)"]) ;;
      acm <- CertificateManager (lines ["ACM Wildcard"; "*.sock.blessedc.org"; "(+ sock.blessedc.org SAN)"]) ;;
      in_vpc <- with_Cluster "VPC (Terraform-managed)" (
        alb <- ALB (lines ["Application"; "Load Balancer"; "(ALB - TLS Termination)"]) ;;
        iam_note <- EC2 (lines ["IRSA roles"; "(alb-controller, external-dns)"]) ;;
        in_eks <- with_Cluster "EKS Cluster" (
          control_plane <- EKS "EKS Control Plane" ;;
          in_kube_system <- with_Cluster "kube-system" (
            alb_controller <- Deployment (lines ["aws-load-balancer-controller"; "(Deployment, IRSA)"]) ;;
            external_dns <- Deployment (lines ["external-dns"; "(Deployment, IRSA)"]) ;;
            ret (alb_controller, external_dns)) ;;
          in_workers <- with_Cluster "Worker Nodes" (
            in_sock_shop <- with_Cluster "Namespace: sock-shop" (
              in_app <- with_Cluster "Application Layer" (
                ingress <- Ingress "ALB Ingress (Ingress resources)" ;;
                frontend <- Pod (lines ["Frontend"; "Service"; "({{ .Release.Name }}-frontend)"]) ;;
                ret (ingress, frontend)) ;;
              in_logic <- with_Cluster "Business Logic" (
                catalogue <- Pod (lines ["Catalogue"; "Service"]) ;;
                carts <- Pod (lines ["Carts"; "Service"]) ;;
                orders <- Pod (lines ["Orders"; "Service"]) ;;
                payment <- Pod (lines ["Payment"; "Service"]) ;;
                user <- Pod (lines ["User"; "Service"]) ;;
                shipping <- Pod (lines ["Shipping"; "Service"]) ;;
                queue_master <- Pod (lines ["Queue"; "Master"]) ;;
                ret (catalogue, carts, orders, payment, user, shipping, queue_master)) ;;
              in_data <- with_Cluster "Data Layer" (
                session_db <- Redis (lines ["Session DB"; "(Redis)"]) ;;
                carts_db <- MongoDB "Carts DB" ;;
                user_db <- MongoDB "User DB" ;;
                catalogue_db <- MySQL (lines ["Catalogue DB"; "(MySQL / RDS)"]) ;;
                orders_db <- MongoDB "Orders DB" ;;
                rabbitmq <- RabbitMQ "RabbitMQ" ;;
                ret (session_db, carts_db, user_db, catalogue_db, orders_db, rabbitmq)) ;;
              ret (in_app, in_logic, in_data)) ;;
            in_monitoring <- with_Cluster "Namespace: monitoring" (
              prometheus <- Prometheus (lines ["Prometheus"; "(Helm)"]) ;;
              grafana <- Grafana (lines ["Grafana"; "(Helm)"]) ;;
              ret (prometheus, grafana)) ;;
            ret (in_sock_shop, in_monitoring)) ;;
          ret (control_plane, in_kube_system, in_workers)) ;;
        ret (alb, iam_note, in_eks)) ;;
      ret (route53, acm, in_vpc)) ;;
    let '(route53, acm,
          (alb, iam_note,
           (control_plane,
            (alb_controller, external_dns),
            ((ingress, frontend),
             (catalogue, carts, orders, payment, user, shipping, queue_master),
             (session_db, carts_db, user_db, catalogue_db, orders_db, rabbitmq),
             (prometheus, grafana))))) := in_aws in

    py users >> Edge [label "https://sock.blessedc.org"] >> route53 ;;
    py route53 >> Edge [label (lines ["A record -> ALB"; "(created by ExternalDNS)"])] >> alb ;;

    py external_dns >> Edge [style "dashed"; label "creates/updates DNS records"] >> route53 ;;

    py acm >> Edge [style "dotted"; color "green"; label "DNS validated via Route53"] >> alb ;;

    py alb_controller >> Edge [label (lines ["reconciles Ingress"; "creates target groups/listeners"])] >> alb ;;
    py alb >> Edge [label "routes traffic"] >> ingress ;;
    py ingress >> frontend ;;

    py frontend >> OList [catalogue; carts; orders; user; payment; shipping] ;;
    py frontend >> session_db ;;

    py catalogue >> catalogue_db ;;
    py carts >> carts_db ;;
    py orders >> orders_db ;;
    py user >> user_db ;;
    py queue_master >> rabbitmq ;;

    py prometheus >> Edge [style "dashed"; color "purple"; label "scrapes"]
      >> OList [frontend; catalogue; carts; orders; payment; user; shipping] ;;
    py grafana >> Edge [style "dashed"; color "purple"] >> prometheus ;;

    py iam_note >> Edge [style "dotted"; label "IRSA for controller & external-dns"] >> alb_controller ;;
    py iam_note >> Edge [style "dotted"] >> external_dns ;;
    ret tt).

Definition confirmation : string :=
  "Improved architecture diagram generated as 'sock_shop_microservices_architecture (improved).png'".

(** Lines 112-114, with the module's [__name__] as parameter: whatever
    executes the module (the interpreter running it as a program, or an
    [import]) binds that name first. *)
Definition run_module (__name__ : string) : M unit :=
  if String.eqb __name__ "__main__" then
    create_architecture_diagram ;;
    print confirmation
  else ret tt.

(** ** Reading a run *)

(** The run of the script as a program. *)
Definition outcome (w : World) : State * (Exn + unit) :=
  run_module "__main__" w initial.

Definition run_trace (w : World) : list event := trace (fst (outcome w)).

Fixpoint declared_nodes (tr : list event) : list node :=
  match tr with
  | [] => []
  | EvNode n :: tr' => n :: declared_nodes tr'
  | _ :: tr' => declared_nodes tr'
  end.

Fixpoint declared_edges (tr : list event) : list (node * node * edge_attrs) :=
  match tr with
  | [] => []
  | EvConnect src dst a :: tr' => (src, dst, a) :: declared_edges tr'
  | _ :: tr' => declared_edges tr'
  end.

Fixpoint rendered (tr : list event) : list diagram :=
  match tr with
  | [] => []
  | EvRender d :: tr' => d :: rendered tr'
  | _ :: tr' => rendered tr'
  end.

(** The diagrams handed to the backend during a run of the program. *)
Definition constructed (w : World) : list diagram := rendered (run_trace w).

Definition node_sig (n : node) : string * NodeClass := (n_label n, n_class n).

(** Every connection in [tr] is between nodes declared earlier in [tr] or
    already in [seen]. *)
Fixpoint scoped (seen : list node) (tr : list event) : Prop :=
  match tr with
  | [] => True
  | EvNode n :: tr' => scoped (seen ++ [n]) tr'
  | EvConnect src dst _ :: tr' => In src seen /\ In dst seen /\ scoped seen tr'
  | _ :: tr' => scoped seen tr'
  end.

(** The nodes of the script in declaration order (lines 24-76). *)
Definition node_table : list (string * NodeClass) :=
  [ ("Users", onprem_client_Users);
    (lines ["Route53"; "sock.blessedc.org"; "(Managed by ExternalDNS)"], aws_network_Route53);
    (lines ["ACM Wildcard"; "*.sock.blessedc.org"; "(+ sock.blessedc.org SAN)"], aws_security_CertificateManager);
    (lines ["Application"; "Load Balancer"; "(ALB - TLS Termination)"], aws_network_ALB);
    (lines ["IRSA roles"; "(alb-controller, external-dns)"], aws_compute_EC2);
    ("EKS Control Plane", aws_compute_EKS);
    (lines ["aws-load-balancer-controller"; "(Deployment, IRSA)"], k8s_compute_Deployment);
    (lines ["external-dns"; "(Deployment, IRSA)"], k8s_compute_Deployment);
    ("ALB Ingress (Ingress resources)", k8s_network_Ingress);
    (lines ["Frontend"; "Service"; "({{ .Release.Name }}-frontend)"], k8s_compute_Pod);
    (lines ["Catalogue"; "Service"], k8s_compute_Pod);
    (lines ["Carts"; "Service"], k8s_compute_Pod);
    (lines ["Orders"; "Service"], k8s_compute_Pod);
    (lines ["Payment"; "Service"], k8s_compute_Pod);
    (lines ["User"; "Service"], k8s_compute_Pod);
    (lines ["Shipping"; "Service"], k8s_compute_Pod);
    (lines ["Queue"; "Master"], k8s_compute_Pod);
    (lines ["Session DB"; "(Redis)"], onprem_inmemory_Redis);
    ("Carts DB", onprem_database_MongoDB);
    ("User DB", onprem_database_MongoDB);
    (lines ["Catalogue DB"; "(MySQL / RDS)"], onprem_database_MySQL);
    ("Orders DB", onprem_database_MongoDB);
    ("RabbitMQ", onprem_queue_RabbitMQ);
    (lines ["Prometheus"; "(Helm)"], onprem_monitoring_Prometheus);
    (lines ["Grafana"; "(Helm)"], onprem_monitoring_Grafana) ].

(** ** Renaming identifiers

    The package never inspects an identifier: it draws it and stores it.
    A run is therefore the run with identifiers 0, 1, 2, ... with every
    identifier replaced by the one drawn in its place. *)

Definition rename_node (f : N -> N) (n : node) : node :=
  mkNode (f (n_id n)) (n_label n) (n_class n).

Fixpoint rename_stmt (f : N -> N) (st : stmt) : stmt :=
  match st with
  | SNode id l c => SNode (f id) l c
  | SEdge t h a => SEdge (f t) (f h) a
  | SSubgraph l body => SSubgraph l (map (rename_stmt f) body)
  end.

Definition rename_diagram (f : N -> N) (d : diagram) : diagram :=
  mkDiagram (d_name d) (d_filename d) (d_direction d) (d_outformat d)
    (d_show d) (map (rename_stmt f) (d_body d)).

Definition rename_event (f : N -> N) (ev : event) : event :=
  match ev with
  | EvNode n => EvNode (rename_node f n)
  | EvConnect src dst a => EvConnect (rename_node f src) (rename_node f dst) a
  | EvRender d => EvRender (rename_diagram f d)
  | _ => ev
  end.

(** The identifier a world draws in place of the canonical [n]. *)
Definition relabel (w : World) (n : N) : N := uuid4 w (N.to_nat n).

(** The two canonical worlds: identifiers drawn in sequence, and a backend
    that always succeeds ([true]) or always fails ([false]). *)
Definition canonical (ok : bool) : World :=
  mkWorld [] [] N.of_nat
    (fun _ => if ok then None else Some (BackendError "dot")).

Definition succeeded {A} (r : Exn + A) : bool :=
  match r with inr _ => true | inl _ => false end.

Definition rename_state (f : N -> N) (s : State) : State :=
  mkState (option_map (rename_diagram f) (ctx_diagram s))
    (map (fun c => (fst c, map (rename_stmt f) (snd c))) (ctx_cluster s))
    (uuid_calls s) (stdout s) (files s) (map (rename_event f) (trace s)).

(** The diagram the canonical runs hand to the backend, and the one a run
    in the world [w] hands to it. *)
Definition sock_shop : diagram :=
  Eval vm_compute in
    hd (mkDiagram title EmptyString "TB" "png" false [])
       (constructed (canonical false)).

Definition built (w : World) : diagram := rename_diagram (relabel w) sock_shop.

(** The states in which the two canonical runs end. *)
Definition final_ok : State :=
  Eval vm_compute in fst (outcome (canonical true)).

Definition final_failed : State :=
  Eval vm_compute in fst (outcome (canonical false)).

Definition final_state (ok : bool) : State :=
  if ok then final_ok else final_failed.

Definition NodeClass_eq_dec (c1 c2 : NodeClass) : {c1 = c2} + {c1 <> c2}.
Proof. decide equality. Defined.

Definition node_eqb (a b : node) : bool :=
  N.eqb (n_id a) (n_id b) && String.eqb (n_label a) (n_label b)
  && (if NodeClass_eq_dec (n_class a) (n_class b) then true else false).

(** The executable form of [scoped]. *)
Fixpoint scopedb (seen : list node) (tr : list event) : bool :=
  match tr with
  | [] => true
  | EvNode n :: tr' => scopedb (seen ++ [n]) tr'
  | EvConnect src dst _ :: tr' =>
      existsb (node_eqb src) seen && existsb (node_eqb dst) seen
      && scopedb seen tr'
  | _ :: tr' => scopedb seen tr'
  end.

(** ** Observations on a trace *)

Fixpoint printed (tr : list event) : list string :=
  match tr with
  | [] => []
  | EvPrint l :: tr' => l :: printed tr'
  | _ :: tr' => printed tr'
  end.

Fixpoint written (tr : list event) : list string :=
  match tr with
  | [] => []
  | EvWrite f :: tr' => f :: written tr'
  | _ :: tr' => written tr'
  end.

Definition is_diagram (ev : event) : bool :=
  match ev with EvDiagram _ _ _ => true | _ => false end.

Definition is_render (ev : event) : bool :=
  match ev with EvRender _ => true | _ => false end.

(** Events that neither touch nor need a diagram. *)
Definition is_output (ev : event) : bool :=
  match ev with
  | EvWrite _ | EvRemove _ | EvPrint _ => true
  | _ => false
  end.

(** Events that build the graph. *)
Definition is_declaration (ev : event) : bool :=
  match ev with
  | EvClusterEnter _ | EvClusterExit _ | EvNode _ | EvConnect _ _ _ => true
  | _ => false
  end.

(** The events before the first rendering request, and those after it. *)
Fixpoint before_render (tr : list event) : list event :=
  match tr with
  | [] => []
  | EvRender _ :: _ => []
  | ev :: tr' => ev :: before_render tr'
  end.

Fixpoint after_render (tr : list event) : list event :=
  match tr with
  | [] => []
  | EvRender _ :: tr' => tr'
  | _ :: tr' => after_render tr'
  end.

(** The text between the first pair of apostrophes of a line: the file
    name the confirmation states. *)
Fixpoint until_quote (s : string) : option string :=
  match s with
  | EmptyString => None
  | String c s' =>
      if Ascii.eqb c "'" then Some EmptyString
      else option_map (String c) (until_quote s')
  end.

Fixpoint quoted (s : string) : option string :=
  match s with
  | EmptyString => None
  | String c s' => if Ascii.eqb c "'" then until_quote s' else quoted s'
  end.

(** An edge as the reader of the picture sees it: the labels of its two
    ends and its attributes. *)
Definition edge_view : Set := string * string * edge_attrs.

Definition edge_sig (e : node * node * edge_attrs) : edge_view :=
  let '(src, dst, a) := e in (n_label src, n_label dst, a).

Definition edge_src (e : edge_view) : string := fst (fst e).
Definition edge_dst (e : edge_view) : string := snd (fst e).

(** The edges declared by a run, in order. *)
Definition edges_of (w : World) : list edge_view :=
  map edge_sig (declared_edges (run_trace w)).

Definition from (l : string) (e : edge_view) : bool := String.eqb (edge_src e) l.
Definition to (l : string) (e : edge_view) : bool := String.eqb (edge_dst e) l.
Definition touches (l : string) (e : edge_view) : bool := from l e || to l e.

(** Attributes of an edge made by [a >> b], and of the two kinds of
    monitoring edge (lines 105 and 106). *)
Definition plain : edge_attrs := mkAttrs None None None dir_forward.
Definition scrape : edge_attrs :=
  mkAttrs (Some "scrapes") (Some "purple") (Some "dashed") dir_forward.
Definition dashed_purple : edge_attrs :=
  mkAttrs None (Some "purple") (Some "dashed") dir_forward.

Definition payment_label : string := lines ["Payment"; "Service"].
Definition shipping_label : string := lines ["Shipping"; "Service"].
Definition frontend_label : string :=
  lines ["Frontend"; "Service"; "({{ .Release.Name }}-frontend)"].
Definition prometheus_label : string := lines ["Prometheus"; "(Helm)"].
Definition grafana_label : string := lines ["Grafana"; "(Helm)"].

(** ** Reading a diagram *)

(** A node as the picture shows it: label, class, and the clusters around
    it from the outermost to the innermost. *)
Definition placed : Set := string * NodeClass * list string.

Fixpoint dot_nodes (path : list string) (st : stmt) : list (N * placed) :=
  match st with
  | SNode id l c => [(id, (l, c, path))]
  | SEdge _ _ _ => []
  | SSubgraph l body => flat_map (dot_nodes (path ++ [l])) body
  end.

Fixpoint dot_edges (st : stmt) : list (N * N * edge_attrs) :=
  match st with
  | SNode _ _ _ => []
  | SEdge t h a => [(t, h, a)]
  | SSubgraph _ body => flat_map dot_edges body
  end.

(** Each cluster as the path of labels that leads to it. *)
Fixpoint dot_clusters (path : list string) (st : stmt) : list (list string) :=
  match st with
  | SSubgraph l body =>
      (path ++ [l]) :: flat_map (dot_clusters (path ++ [l])) body
  | _ => []
  end.

Definition nodes_of (d : diagram) : list (N * placed) :=
  flat_map (dot_nodes []) (d_body d).

Definition arcs_of (d : diagram) : list (N * N * edge_attrs) :=
  flat_map dot_edges (d_body d).

Definition clusters_of (d : diagram) : list (list string) :=
  flat_map (dot_clusters []) (d_body d).

(** The label under which an identifier is drawn: that of the first node
    statement carrying it, if any. *)
Definition label_of (nodes : list (N * placed)) (id : N) : option string :=
  option_map (fun p => fst (fst (snd p)))
    (find (fun p => N.eqb (fst p) id) nodes).

Definition resolve (nodes : list (N * placed)) (e : N * N * edge_attrs)
  : option string * option string * edge_attrs :=
  (label_of nodes (fst (fst e)), label_of nodes (snd (fst e)), snd e).

(** What a diagram shows, identifiers apart: name, direction, the nodes
    with their clusters, the edges between labels, and the clusters. *)
Definition graph_view (d : diagram) :=
  (d_name d, d_direction d, map snd (nodes_of d),
   map (resolve (nodes_of d)) (arcs_of d), clusters_of d).

(** The edges a diagram shows, each read between the labels of the node
    statements that carry the identifiers of its ends; and a declared edge
    as it is shown when both its ends are found. *)
Definition shown_edges (d : diagram)
  : list (option string * option string * edge_attrs) :=
  map (resolve (nodes_of d)) (arcs_of d).

(** Whether an end of a shown edge is the node labelled [l]. *)
Definition at_label (l : string) (o : option string) : bool :=
  match o with
  | Some l' => String.eqb l' l
  | None => false
  end.

Definition edge_shown (e : string * string * edge_attrs)
  : option string * option string * edge_attrs :=
  (Some (fst (fst e)), Some (snd (fst e)), snd e).

(** The settings of a diagram, its graph apart. *)
Definition settings (d : diagram) :=
  (d_name d, d_filename d, d_direction d, d_outformat d, d_show d).

(** The edge statement a connection leaves in the diagram. *)
Definition arc_ids (e : node * node * edge_attrs) : N * N * edge_attrs :=
  (n_id (fst (fst e)), n_id (snd (fst e)), snd e).

(** The script declares twenty-five nodes; no two of the identifiers drawn
    for them coincide. *)
Definition ids_distinct (w : World) : Prop :=
  forall i j, i < 25 -> j < 25 -> uuid4 w i = uuid4 w j -> i = j.

Definition inj_on (f : N -> N) (L : list N) : Prop :=
  forall x y, In x L -> In y L -> f x = f y -> x = y.

Definition rename_placed (f : N -> N) (p : N * placed) : N * placed :=
  (f (fst p), snd p).

Definition rename_arc (f : N -> N) (e : N * N * edge_attrs) :=
  (f (fst (fst e)), f (snd (fst e)), snd e).

Definition arc_within (L : list N) (e : N * N * edge_attrs) : bool :=
  existsb (N.eqb (fst (fst e))) L && existsb (N.eqb (snd (fst e))) L.

(** The clusters open around each node when it is declared, read off the
    trace; [open] lists the clusters entered and not yet left. *)
Fixpoint placements (open : list string) (tr : list event)
  : list (string * list string) :=
  match tr with
  | [] => []
  | EvClusterEnter l :: tr' => placements (open ++ [l]) tr'
  | EvClusterExit _ :: tr' => placements (removelast open) tr'
  | EvNode n :: tr' => (n_label n, open) :: placements open tr'
  | _ :: tr' => placements open tr'
  end.

(** The cluster directly around the cluster labelled [c], and whether the
    cluster labelled [outer] lies somewhere around it. *)
Definition path_to (table : list (list string)) (c : string)
  : option (list string) :=
  find (fun path => String.eqb (last path EmptyString) c) table.

Definition parent (table : list (list string)) (c : string) : option string :=
  match path_to table c with
  | Some path => Some (last (removelast path) EmptyString)
  | None => None
  end.

Definition encloses (table : list (list string)) (outer inner : string) : bool :=
  match path_to table inner with
  | Some path => existsb (String.eqb outer) (removelast path)
  | None => false
  end.

(** The clusters of the script (lines 27-74) by their paths. *)
Definition path_aws : list string := ["AWS Cloud"].
Definition path_vpc : list string := path_aws ++ ["VPC (Terraform-managed)"].
Definition path_eks : list string := path_vpc ++ ["EKS Cluster"].
Definition path_kube_system : list string := path_eks ++ ["kube-system"].
Definition path_workers : list string := path_eks ++ ["Worker Nodes"].
Definition path_sock_shop : list string := path_workers ++ ["Namespace: sock-shop"].
Definition path_application : list string := path_sock_shop ++ ["Application Layer"].
Definition path_business : list string := path_sock_shop ++ ["Business Logic"].
Definition path_data : list string := path_sock_shop ++ ["Data Layer"].
Definition path_monitoring : list string := path_workers ++ ["Namespace: monitoring"].

Definition cluster_table : list (list string) :=
  [path_aws; path_vpc; path_eks; path_kube_system; path_workers; path_sock_shop;
   path_application; path_business; path_data; path_monitoring].

(** Each node with the clusters it is declared in. *)
Definition placement_table : list (string * list string) :=
  combine (map fst node_table)
    ([[]; path_aws; path_aws; path_vpc; path_vpc; path_eks;
      path_kube_system; path_kube_system;
      path_application; path_application]
     ++ repeat path_business 7 ++ repeat path_data 6
     ++ [path_monitoring; path_monitoring]).

(** ** Code that runs inside a diagram context *)

(** [m] started in any state that has a diagram context returns normally,
    draws [k] identifiers, keeps the settings of the diagram in context,
    and leaves standard output, the files and the labels of the open
    clusters as they were. *)
Definition inside {A} (k : nat) (m : M A) : Prop :=
  forall w s,
    ctx_diagram s <> None ->
    succeeded (snd (m w s)) = true /\
    ctx_diagram (fst (m w s)) <> None /\
    option_map settings (ctx_diagram (fst (m w s))) =
      option_map settings (ctx_diagram s) /\
    uuid_calls (fst (m w s)) = uuid_calls s + k /\
    stdout (fst (m w s)) = stdout s /\
    files (fst (m w s)) = files s /\
    map fst (ctx_cluster (fst (m w s))) = map fst (ctx_cluster s).

(** ** The declared graph *)

(** The declared edges as pairs of labels. *)
Definition arrows (w : World) : list (string * string) := map fst (edges_of w).

(** [reach E a b]: [b] is [a] or can be reached from it along edges of [E]. *)
Inductive reach (E : list (string * string)) (a : string) : string -> Prop :=
  | reach_here : reach E a a
  | reach_step (b c : string) : reach E a b -> In (b, c) E -> reach E a c.

Definition on_cycle (E : list (string * string)) (a : string) : Prop :=
  exists b, reach E a b /\ In (b, a) E.

Fixpoint rank (order : list string) (l : string) : nat :=
  match order with
  | [] => 0
  | x :: order' => if String.eqb x l then 0 else S (rank order' l)
  end.

(** Every edge of [E] goes from a label to one further down in [order]. *)
Definition ascending (order : list string) (E : list (string * string)) : bool :=
  forallb (fun e => Nat.ltb (rank order (fst e)) (rank order (snd e))) E.

Definition memb (x : string) (l : list string) : bool :=
  existsb (String.eqb x) l.

Definition closed_under (E : list (string * string)) (C : list string) : bool :=
  forallb (fun e => implb (memb (fst e) C) (memb (snd e) C)) E.

(** One round of following edges out of [seen], and [n] rounds. *)
Definition grow (E : list (string * string)) (seen : list string) : list string :=
  seen ++ map snd (filter (fun e => memb (fst e) seen) E).

Fixpoint closure (E : list (string * string)) (n : nat) (seen : list string)
  : list string :=
  match n with
  | 0 => seen
  | S n' => closure E n' (grow E seen)
  end.

Definition pair_eqb (p q : string * string) : bool :=
  String.eqb (fst p) (fst q) && String.eqb (snd p) (snd q).

Fixpoint distinctb {A} (eqb : A -> A -> bool) (l : list A) : bool :=
  match l with
  | [] => true
  | x :: l' => negb (existsb (eqb x) l') && distinctb eqb l'
  end.

(** The labels of the script's nodes with every source of an edge before
    its targets. *)
Definition downstream_order : list string :=
  [ "Users";
    lines ["ACM Wildcard"; "*.sock.blessedc.org"; "(+ sock.blessedc.org SAN)"];
    lines ["IRSA roles"; "(alb-controller, external-dns)"];
    grafana_label;
    lines ["Queue"; "Master"];
    "EKS Control Plane";
    lines ["external-dns"; "(Deployment, IRSA)"];
    lines ["aws-load-balancer-controller"; "(Deployment, IRSA)"];
    prometheus_label;
    lines ["Route53"; "sock.blessedc.org"; "(Managed by ExternalDNS)"];
    lines ["Application"; "Load Balancer"; "(ALB - TLS Termination)"];
    "ALB Ingress (Ingress resources)";
    frontend_label;
    lines ["Catalogue"; "Service"]; lines ["Carts"; "Service"];
    lines ["Orders"; "Service"]; payment_label; lines ["User"; "Service"];
    shipping_label;
    lines ["Session DB"; "(Redis)"]; "Carts DB"; "User DB";
    lines ["Catalogue DB"; "(MySQL / RDS)"]; "Orders DB"; "RabbitMQ" ].

(** What a request of the users can reach (lines 79-101). *)
Definition request_path : list string :=
  [ "Users";
    lines ["Route53"; "sock.blessedc.org"; "(Managed by ExternalDNS)"];
    lines ["Application"; "Load Balancer"; "(ALB - TLS Termination)"];
    "ALB Ingress (Ingress resources)";
    frontend_label;
    lines ["Catalogue"; "Service"]; lines ["Carts"; "Service"];
    lines ["Orders"; "Service"]; lines ["User"; "Service"];
    payment_label; shipping_label;
    lines ["Session DB"; "(Redis)"];
    lines ["Catalogue DB"; "(MySQL / RDS)"]; "Carts DB"; "Orders DB"; "User DB" ].

(** The data stores of the script (lines 66-71). *)
Definition data_stores : list string :=
  [ lines ["Session DB"; "(Redis)"]; "Carts DB"; "User DB";
    lines ["Catalogue DB"; "(MySQL / RDS)"]; "Orders DB"; "RabbitMQ" ].

(** ** Order of construction *)

(** The cluster events of [tr] open and close like brackets, and no
    cluster is open when an edge is declared, when rendering is requested
    or at the end.  [open] holds the clusters entered and not yet left,
    innermost first. *)
Fixpoint well_nested (open : list string) (tr : list event) : bool :=
  match tr with
  | [] => match open with [] => true | _ => false end
  | EvClusterEnter l :: tr' => well_nested (l :: open) tr'
  | EvClusterExit l :: tr' =>
      match open with
      | top :: rest => String.eqb l top && well_nested rest tr'
      | [] => false
      end
  | EvConnect _ _ _ :: tr' | EvRender _ :: tr' =>
      match open with
      | [] => well_nested [] tr'
      | _ => false
      end
  | _ :: tr' => well_nested open tr'
  end.

Fixpoint from_first_connect (tr : list event) : list event :=
  match tr with
  | [] => []
  | EvConnect _ _ _ :: _ => tr
  | _ :: tr' => from_first_connect tr'
  end.

Definition declares_node_or_cluster (ev : event) : bool :=
  match ev with
  | EvNode _ | EvClusterEnter _ | EvClusterExit _ => true
  | _ => false
  end.

(** ** Calling the function again *)

(** A caller that generates the diagram twice. *)
Definition generate_twice : M unit :=
  create_architecture_diagram ;; create_architecture_diagram.

(** The state in which the function leaves the canonical world when the
    backend succeeds. *)
Definition created_ok : State :=
  Eval vm_compute in fst (create_architecture_diagram (canonical true) initial).

(** What a diagram shows when identifiers and the ends of edges are left
    out. *)
Definition outline (d : diagram) :=
  (settings d, map snd (nodes_of d), map snd (arcs_of d), clusters_of d).

(** ** File names *)

Fixpoint any_char (p : ascii -> bool) (s : string) : bool :=
  match s with
  | EmptyString => false
  | String c s' => p c || any_char p s'
  end.

(** ** Proof steps shared by the theorems *)

Lemma node_eqb_eq (a b : node) : node_eqb a b = true -> a = b.
Proof.
  destruct a as [i l c], b as [i' l' c']. unfold node_eqb. simpl.
  intros H. apply andb_prop in H as [H Hc]. apply andb_prop in H as [Hi Hl].
  apply N.eqb_eq in Hi. apply String.eqb_eq in Hl.
  destruct (NodeClass_eq_dec c c'); [congruence | discriminate].
Qed.

Lemma existsb_node_In (x : node) (l : list node) :
  existsb (node_eqb x) l = true -> In x l.
Proof.
  intros H. apply existsb_exists in H as [y [Hy He]].
  apply node_eqb_eq in He. now subst.
Qed.

Lemma scopedb_rename (f : N -> N) (tr : list event) :
  forall seen,
    scopedb seen tr = true ->
    scoped (map (rename_node f) seen) (map (rename_event f) tr).
Proof.
  induction tr as [|ev tr IH]; intros seen H; [exact I|].
  destruct ev; simpl in H |- *; try (apply IH; exact H).
  - specialize (IH (seen ++ [n]) H). now rewrite map_app in IH.
  - apply andb_prop in H as [H Ht]. apply andb_prop in H as [Hs Hd].
    repeat split.
    + apply in_map, existsb_node_In, Hs.
    + apply in_map, existsb_node_In, Hd.
    + apply IH, Ht.
Qed.

Lemma scoped_split (tr : list event) :
  forall seen pre src dst a post,
    scoped seen tr ->
    tr = pre ++ EvConnect src dst a :: post ->
    In src (seen ++ declared_nodes pre) /\ In dst (seen ++ declared_nodes pre).
Proof.
  induction tr as [|ev tr IH]; intros seen pre src dst a post Hs Heq.
  - destruct pre; discriminate.
  - destruct pre as [|ev' pre]; simpl in Heq; injection Heq as Hev Htl.
    + subst ev. simpl in Hs. rewrite app_nil_r. tauto.
    + subst ev'.
      destruct ev; simpl in Hs |- *;
        try (eapply IH; [exact Hs | exact Htl]).
      * rewrite (app_assoc seen [n] _ : seen ++ n :: declared_nodes pre = _).
        eapply IH; [exact Hs | exact Htl].
      * eapply IH; [apply Hs | exact Htl].
Qed.

Lemma run_main (w : World) : run_module "__main__" w initial = outcome w.
Proof. unfold outcome. exact eq_refl. Qed.

(** The canonical runs end in the states recorded above. *)
Lemma canonical_outcome (ok : bool) :
  outcome (canonical ok) =
  (final_state ok, if ok then inr tt else inl (BackendError "dot")).
Proof. destruct ok; vm_compute; reflexivity. Qed.

(** Every run is one of the two canonical runs with its identifiers
    renamed; which of the two, and with which exception, is decided by the
    answer of the backend to the one diagram it is handed. *)
Lemma outcome_cases (w : World) :
  outcome w =
  match dot_render w (built w) with
  | None => (rename_state (relabel w) (final_state true), inr tt)
  | Some e => (rename_state (relabel w) (final_state false), inl e)
  end.
Proof.
  destruct w as [av en uu dr]. vm_compute. destruct (dr _); reflexivity.
Qed.

(** Replaces the run of [w] in the goal by the renamed canonical runs and
    splits on the answer of the backend. *)
Ltac run_script w :=
  unfold edges_of, constructed, run_trace;
  rewrite ?(outcome_cases w);
  let e := fresh "e" in
  let Hdot := fresh "Hdot" in
  destruct (dot_render w (built w)) as [e|] eqn:Hdot;
  cbv beta iota delta [fst snd].

(** Closes a goal that is settled by evaluating it. *)
Ltac by_evaluation := vm_compute; reflexivity.

Lemma canonical_scoped (ok : bool) : scopedb [] (trace (final_state ok)) = true.
Proof. destruct ok; by_evaluation. Qed.

Lemma script_scoped (w : World) : scoped [] (run_trace w).
Proof.
  run_script w.
  - exact (scopedb_rename (relabel w) (trace (final_state false)) []
             (canonical_scoped false)).
  - exact (scopedb_rename (relabel w) (trace (final_state true)) []
             (canonical_scoped true)).
Qed.

(** The backend is handed one diagram, the canonical one renamed. *)
Lemma constructed_built (w : World) : constructed w = [built w].
Proof. run_script w; by_evaluation. Qed.

(** ** Renaming and what a diagram shows *)

Lemma dot_nodes_rename (f : N -> N) :
  forall st path,
    dot_nodes path (rename_stmt f st) = map (rename_placed f) (dot_nodes path st).
Proof.
  fix IH 1. intros [id l c | t h a | l body] path;
    cbn [dot_nodes rename_stmt map]; try reflexivity.
  induction body as [|st body IHb]; cbn [map flat_map]; [reflexivity|].
  now rewrite map_app, IH, IHb.
Qed.

Lemma dot_edges_rename (f : N -> N) :
  forall st, dot_edges (rename_stmt f st) = map (rename_arc f) (dot_edges st).
Proof.
  fix IH 1. intros [id l c | t h a | l body];
    cbn [dot_edges rename_stmt map]; try reflexivity.
  induction body as [|st body IHb]; cbn [map flat_map]; [reflexivity|].
  now rewrite map_app, IH, IHb.
Qed.

Lemma dot_clusters_rename (f : N -> N) :
  forall st path, dot_clusters path (rename_stmt f st) = dot_clusters path st.
Proof.
  fix IH 1. intros [id l c | t h a | l body] path;
    cbn [dot_clusters rename_stmt]; try reflexivity.
  f_equal.
  induction body as [|st body IHb]; cbn [map flat_map]; [reflexivity|].
  now rewrite IH, IHb.
Qed.

Lemma nodes_of_rename (f : N -> N) (d : diagram) :
  nodes_of (rename_diagram f d) = map (rename_placed f) (nodes_of d).
Proof.
  unfold nodes_of, rename_diagram. cbn [d_body].
  induction (d_body d) as [|st body IH]; cbn [map flat_map]; [reflexivity|].
  now rewrite map_app, dot_nodes_rename, IH.
Qed.

Lemma arcs_of_rename (f : N -> N) (d : diagram) :
  arcs_of (rename_diagram f d) = map (rename_arc f) (arcs_of d).
Proof.
  unfold arcs_of, rename_diagram. cbn [d_body].
  induction (d_body d) as [|st body IH]; cbn [map flat_map]; [reflexivity|].
  now rewrite map_app, dot_edges_rename, IH.
Qed.

Lemma clusters_of_rename (f : N -> N) (d : diagram) :
  clusters_of (rename_diagram f d) = clusters_of d.
Proof.
  unfold clusters_of, rename_diagram. cbn [d_body].
  induction (d_body d) as [|st body IH]; cbn [map flat_map]; [reflexivity|].
  now rewrite dot_clusters_rename, IH.
Qed.

Lemma arc_within_In (L : list N) (e : N * N * edge_attrs) :
  arc_within L e = true -> In (fst (fst e)) L /\ In (snd (fst e)) L.
Proof.
  unfold arc_within. intros H. apply andb_prop in H as [Ht Hh].
  apply existsb_exists in Ht as [x [Hx Ex]].
  apply existsb_exists in Hh as [y [Hy Ey]].
  apply N.eqb_eq in Ex, Ey. subst. now split.
Qed.

Lemma ids_rename (f : N -> N) (nodes : list (N * placed)) :
  map fst (map (rename_placed f) nodes) = map f (map fst nodes).
Proof. now rewrite !map_map. Qed.

(** Renaming keeps the ends of every edge among the nodes. *)
Lemma arcs_within_rename (f : N -> N) (d : diagram) :
  forallb (arc_within (map fst (nodes_of d))) (arcs_of d) = true ->
  forall e, In e (arcs_of (rename_diagram f d)) ->
    In (fst (fst e)) (map fst (nodes_of (rename_diagram f d))) /\
    In (snd (fst e)) (map fst (nodes_of (rename_diagram f d))).
Proof.
  intros Hall e He. rewrite forallb_forall in Hall.
  rewrite arcs_of_rename in He. apply in_map_iff in He as [e0 [<- He0]].
  destruct (arc_within_In _ _ (Hall e0 He0)) as [Ht Hh].
  rewrite nodes_of_rename, ids_rename. cbn [rename_arc fst snd].
  split; [exact (in_map f _ _ Ht) | exact (in_map f _ _ Hh)].
Qed.

Lemma label_of_rename (f : N -> N) (L : list N) (nodes : list (N * placed)) (id : N) :
  inj_on f L -> incl (map fst nodes) L -> In id L ->
  label_of (map (rename_placed f) nodes) (f id) = label_of nodes id.
Proof.
  intros Hinj Hincl Hid. unfold label_of.
  induction nodes as [|[a p] nodes IH]; [reflexivity|].
  assert (Ha : In a L) by (apply Hincl; left; reflexivity).
  assert (Hrest : incl (map fst nodes) L)
    by (intros x Hx; apply Hincl; right; exact Hx).
  cbn [map find rename_placed fst snd].
  destruct (N.eqb_spec a id) as [->|Hne].
  - rewrite N.eqb_refl. reflexivity.
  - destruct (N.eqb_spec (f a) (f id)) as [E|_].
    + exfalso. apply Hne, (Hinj a id Ha Hid E).
    + apply IH, Hrest.
Qed.

Lemma resolve_rename (f : N -> N) (nodes : list (N * placed))
    (arcs : list (N * N * edge_attrs)) :
  inj_on f (map fst nodes) ->
  forallb (arc_within (map fst nodes)) arcs = true ->
  map (resolve (map (rename_placed f) nodes)) (map (rename_arc f) arcs)
  = map (resolve nodes) arcs.
Proof.
  intros Hinj Hall. rewrite map_map. apply map_ext_in. intros e He.
  rewrite forallb_forall in Hall.
  destruct (arc_within_In _ _ (Hall e He)) as [Ht Hh].
  unfold resolve, rename_arc. cbn [fst snd].
  rewrite !(label_of_rename f (map fst nodes)); auto using incl_refl.
Qed.

(** A renaming that keeps the identifiers of a diagram apart does not
    change what the diagram shows. *)
Lemma graph_view_rename (f : N -> N) (d : diagram) :
  inj_on f (map fst (nodes_of d)) ->
  forallb (arc_within (map fst (nodes_of d))) (arcs_of d) = true ->
  graph_view (rename_diagram f d) = graph_view d.
Proof.
  intros Hinj Hall. unfold graph_view.
  rewrite nodes_of_rename, arcs_of_rename, clusters_of_rename.
  rewrite (resolve_rename f _ _ Hinj Hall), map_map.
  reflexivity.
Qed.

Lemma sock_shop_arcs_within :
  forallb (arc_within (map fst (nodes_of sock_shop))) (arcs_of sock_shop) = true.
Proof. by_evaluation. Qed.

Lemma relabel_inj_on (w : World) :
  ids_distinct w -> inj_on (relabel w) (map fst (nodes_of sock_shop)).
Proof.
  intros Hw x y Hx Hy E.
  assert (Hlt : forall z, In z (map fst (nodes_of sock_shop)) -> (z < 25)%N).
  { intros z Hz.
    assert (Hb : forallb (fun z => N.ltb z 25) (map fst (nodes_of sock_shop)) = true)
      by by_evaluation.
    rewrite forallb_forall in Hb. apply N.ltb_lt, Hb, Hz. }
  apply Hlt in Hx, Hy. unfold relabel in E.
  apply Hw in E; lia.
Qed.

(** ** Edges and the nodes they join *)

(** C1: in every run, each connection is made between two node objects
    that were declared earlier in that run (a fan-out to a list makes one
    connection per element); the nodes declared are the same twenty-five,
    in the same order, whatever the run; and in the diagram handed to the
    backend both ends of every edge statement are identifiers of node
    statements. *)
Theorem edge_endpoints_declared_before (w : World) :
  map node_sig (declared_nodes (run_trace w)) = node_table /\
  (forall pre src dst a post,
     run_trace w = pre ++ EvConnect src dst a :: post ->
     In src (declared_nodes pre) /\ In dst (declared_nodes pre)) /\
  (forall d e,
     In d (constructed w) -> In e (arcs_of d) ->
     In (fst (fst e)) (map fst (nodes_of d)) /\
     In (snd (fst e)) (map fst (nodes_of d))).
Proof.
  split; [|split].
  - run_script w; by_evaluation.
  - intros pre src dst a post Heq.
    apply (scoped_split (run_trace w) [] pre src dst a post (script_scoped w) Heq).
  - intros d e Hd. rewrite constructed_built in Hd. destruct Hd as [<-|[]].
    apply arcs_within_rename, sock_shop_arcs_within.
Qed.

Lemma edge_endpoints_declared_before_witness :
  run_trace (canonical true) =
    firstn 46 (run_trace (canonical true))
    ++ EvConnect (mkNode 0 "Users" onprem_client_Users)
         (mkNode 1 (lines ["Route53"; "sock.blessedc.org"; "(Managed by ExternalDNS)"])
            aws_network_Route53)
         (mkAttrs (Some "https://sock.blessedc.org") None None dir_forward)
       :: skipn 47 (run_trace (canonical true))
  /\ In (mkNode 0 "Users" onprem_client_Users)
        (declared_nodes (firstn 46 (run_trace (canonical true)))).
Proof.
  assert (E : run_trace (canonical true) =
    firstn 46 (run_trace (canonical true))
    ++ EvConnect (mkNode 0 "Users" onprem_client_Users)
         (mkNode 1 (lines ["Route53"; "sock.blessedc.org"; "(Managed by ExternalDNS)"])
            aws_network_Route53)
         (mkAttrs (Some "https://sock.blessedc.org") None None dir_forward)
       :: skipn 47 (run_trace (canonical true)))
    by (vm_compute; reflexivity).
  split; [exact E|].
  exact (proj1 (proj1 (proj2 (edge_endpoints_declared_before (canonical true)))
                  _ _ _ _ _ E)).
Defined.

(** ** The invocation guard *)

(** C2: the module generates, writes and prints only when it is executed
    under the name [__main__].  Under any other name (an import) the
    process state is left as it was: nothing is rendered, written or
    printed.  Under [__main__] the generation is requested, and the
    confirmation is printed whenever the generation does not raise. *)
Theorem generation_only_as_main (w : World) (name : string) :
  (name <> "__main__" -> run_module name w initial = (initial, inr tt)) /\
  (rendered (trace (fst (run_module name w initial))) <> [] <->
     name = "__main__") /\
  (printed (trace (fst (run_module name w initial))) <> [] ->
     name = "__main__") /\
  (name = "__main__" -> succeeded (snd (run_module name w initial)) = true ->
     printed (trace (fst (run_module name w initial))) = [confirmation]).
Proof.
  destruct (String.eqb_spec name "__main__") as [->|Hne].
  - rewrite run_main.
    run_script w; (split; [intros H; now elim H|]);
      (split; [split; [reflexivity | intros _; vm_compute; intros E; discriminate E]|]);
      (split; [reflexivity|]); intros _ H;
      [vm_compute in H; discriminate H | by_evaluation].
  - assert (Hrun : run_module name w initial = (initial, inr tt)).
    { unfold run_module.
      destruct (String.eqb_spec name "__main__"); [contradiction | reflexivity]. }
    rewrite Hrun. simpl. repeat split; try tauto; try congruence.
Qed.

Lemma generation_only_as_main_witness :
  "generate_architecture" <> "__main__" /\
  run_module "generate_architecture" (canonical true) initial = (initial, inr tt).
Proof.
  assert (Hne : "generate_architecture" <> "__main__") by discriminate.
  split; [exact Hne|].
  exact (proj1 (generation_only_as_main (canonical true) "generate_architecture") Hne).
Defined.

(** ** The confirmation line *)

(** A sanitizer that rewrites the title character by character cannot
    produce the name the confirmation states: the title's blanks would
    have to become underscores in three places and stay blank in the
    fourth. *)
Lemma no_charwise_sanitizer (f : ascii -> ascii) :
  quoted confirmation <> Some (PyStr.map_chars f title ++ ".png")%string.
Proof.
  vm_compute. intros H. injection H as H.
  repeat match type of H with
         | String _ _ = String _ _ => injection H as ? H
         end.
  congruence.
Qed.

(** C4: when the program runs and generation succeeds, one line is
    printed, after the image has been written and the Graphviz source
    removed; the image is named
    [sock_shop_microservices_architecture_(improved).png], the lower-cased
    title with its words joined by underscores, whereas the line states
    [sock_shop_microservices_architecture (improved).png]. *)
Theorem confirmation_states_another_file (w : World) :
  succeeded (snd (outcome w)) = true ->
  stdout (fst (outcome w)) = [confirmation] /\
  after_render (run_trace w) =
    [EvWrite "sock_shop_microservices_architecture_(improved)";
     EvWrite "sock_shop_microservices_architecture_(improved).png";
     EvRemove "sock_shop_microservices_architecture_(improved)";
     EvPrint confirmation] /\
  printed (after_render (run_trace w)) = [confirmation] /\
  files (fst (outcome w)) = map image_file (constructed w) /\
  map image_file (constructed w) =
    [(default_filename title ++ ".png")%string] /\
  files (fst (outcome w)) =
    ["sock_shop_microservices_architecture_(improved).png"] /\
  quoted confirmation =
    Some "sock_shop_microservices_architecture (improved).png" /\
  ~ In (quoted confirmation) (map Some (files (fst (outcome w)))).
Proof.
  run_script w; intros H; [discriminate|].
  repeat split; try reflexivity.
  intros [E|[]]. discriminate E.
Qed.

Lemma confirmation_states_another_file_witness :
  succeeded (snd (outcome (canonical true))) = true /\
  ~ In (quoted confirmation)
       (map Some (files (fst (outcome (canonical true))))).
Proof.
  assert (Hok : succeeded (snd (outcome (canonical true))) = true)
    by (vm_compute; reflexivity).
  split; [exact Hok|].
  apply (confirmation_states_another_file (canonical true) Hok).
Defined.

(** ** Lifecycle of the diagram *)

(** C6: a run creates one diagram, first of all, with the title, with
    direction [TB] and with [show] off; everything up to the single
    rendering request declares nodes, clusters and edges; what follows the
    request leaves the diagram alone (the Graphviz source is saved, the
    image written, the source removed and the line printed), and the
    context no longer holds the diagram once rendering has succeeded. *)
Theorem diagram_built_and_rendered_once (w : World) :
  hd_error (run_trace w) = Some (EvDiagram title false "TB") /\
  List.length (filter is_diagram (run_trace w)) = 1 /\
  List.length (filter is_render (run_trace w)) = 1 /\
  forallb is_declaration (tl (before_render (run_trace w))) = true /\
  forallb is_output (after_render (run_trace w)) = true /\
  map (fun d => (d_name d, d_direction d, d_show d)) (constructed w) =
    [(title, "TB", false)] /\
  ctx_diagram (fst (outcome w)) =
    (if succeeded (snd (outcome w)) then None else hd_error (constructed w)).
Proof.
  run_script w; repeat split; reflexivity.
Qed.

(** ** Failure of the backend *)

(** Nothing in the monad catches: once a step has raised, the rest of a
    sequence does not run. *)
Lemma bind_raise {A B} (m : M A) (k : A -> M B) w s s' e :
  m w s = (s', inl e) -> bind m k w s = (s', inl e).
Proof. unfold bind. now intros ->. Qed.

(** A [with Cluster] block hands on the exception of its body. *)
Lemma with_Cluster_raise {A} (l : string) (body : M A) w s d s' e :
  ctx_diagram s = Some d ->
  body w (log (EvClusterEnter l) (set_cluster ((l, []) :: ctx_cluster s) s))
    = (s', inl e) ->
  snd (with_Cluster l body w s) = inl e.
Proof. unfold with_Cluster. intros -> Hb. simpl in Hb |- *. now rewrite Hb. Qed.

(** A [with Diagram] block ends with an exception whenever its body or the
    rendering raised; the exception of the rendering comes first. *)
Lemma with_Diagram_raise {A} (name : string) kwargs (body : M A) w s :
  (exists e, snd (with_Diagram name kwargs body w s) = inl e) \/
  (exists d s' x, Diagram_init name kwargs = inr d /\
     body w (set_diagram (Some d) (log (EvDiagram name (d_show d) (d_direction d)) s))
       = (s', inr x)).
Proof.
  unfold with_Diagram.
  destruct (Diagram_init name kwargs) as [e|d]; [left; now exists e|].
  destruct (body w _) as [s' [e|x]] eqn:Hb.
  - left. unfold render.
    destruct (dot_render w _) as [e'|]; [now exists e' | now exists e].
  - right. now exists d, s', x.
Qed.

(** C7: when the backend raises on the diagram it is handed, the program
    ends with that very exception.  The rendering was requested once;
    after the request only the Graphviz source was saved, which stays on
    disk as the only file; no image is written, the source is not
    removed, and nothing is printed. *)
Theorem backend_failure_propagates (w : World) (d : diagram) (e : Exn) :
  In d (constructed w) ->
  dot_render w d = Some e ->
  snd (outcome w) = inl e /\
  constructed w = [d] /\
  after_render (run_trace w) = [EvWrite (d_filename d)] /\
  printed (run_trace w) = [] /\
  written (run_trace w) = [d_filename d] /\
  stdout (fst (outcome w)) = [] /\
  files (fst (outcome w)) = [d_filename d] /\
  d_filename d = "sock_shop_microservices_architecture_(improved)" /\
  ~ In (image_file d) (files (fst (outcome w))).
Proof.
  intros Hin Hd. rewrite constructed_built in Hin |- *.
  destruct Hin as [<-|[]].
  unfold run_trace. rewrite outcome_cases, Hd. cbv beta iota delta [fst snd].
  do 8 (split; [by_evaluation|]).
  vm_compute. intros [E|[]]. discriminate E.
Qed.

Lemma backend_failure_propagates_witness :
  In sock_shop (constructed (canonical false)) /\
  dot_render (canonical false) sock_shop = Some (BackendError "dot") /\
  snd (outcome (canonical false)) = inl (BackendError "dot").
Proof.
  assert (Hin : In sock_shop (constructed (canonical false)))
    by (vm_compute; left; reflexivity).
  assert (Hdot : dot_render (canonical false) sock_shop = Some (BackendError "dot"))
    by reflexivity.
  split; [exact Hin|]. split; [exact Hdot|].
  apply (backend_failure_propagates (canonical false) sock_shop
           (BackendError "dot") Hin Hdot).
Defined.

(** ** Particular nodes and edges *)

(** C8: no declared edge starts at the Payment or the Shipping pod; each
    of the two is the target of exactly two edges, the plain one of the
    frontend fan-out and the scrape edge of Prometheus. *)
Theorem payment_shipping_only_targets (w : World) :
  filter (from payment_label) (edges_of w) = [] /\
  filter (from shipping_label) (edges_of w) = [] /\
  filter (to payment_label) (edges_of w) =
    [(frontend_label, payment_label, plain);
     (prometheus_label, payment_label, scrape)] /\
  filter (to shipping_label) (edges_of w) =
    [(frontend_label, shipping_label, plain);
     (prometheus_label, shipping_label, scrape)].
Proof.
  run_script w; repeat split; reflexivity.
Qed.

(** C9: the node labelled [EKS Control Plane] is declared, once, and no
    declared edge starts or ends at it. *)
Theorem control_plane_isolated (w : World) :
  filter (String.eqb "EKS Control Plane")
    (map n_label (declared_nodes (run_trace w))) = ["EKS Control Plane"] /\
  filter (touches "EKS Control Plane") (edges_of w) = [].
Proof.
  run_script w; split; reflexivity.
Qed.

(** C10: the declared edges that start or end at Prometheus or Grafana are
    the seven dashed scrape edges from Prometheus to the frontend,
    catalogue, carts, orders, payment, user and shipping pods, followed by
    one dashed edge from Grafana to Prometheus; there is no other.  The
    edge statements of the diagram handed to the backend are the declared
    edges, one for one and in order, and the node statements carry the
    declared nodes' identifiers and labels; so, the identifiers drawn
    being distinct, the edges that diagram shows between labels are the
    declared edges, and those at Prometheus or Grafana are these eight. *)
Theorem monitoring_edges_exact (w : World) :
  filter (fun e => touches prometheus_label e || touches grafana_label e)
    (edges_of w) =
  map (fun pod => (prometheus_label, pod, scrape))
    [frontend_label; lines ["Catalogue"; "Service"]; lines ["Carts"; "Service"];
     lines ["Orders"; "Service"]; payment_label; lines ["User"; "Service"];
     shipping_label]
  ++ [(grafana_label, prometheus_label, dashed_purple)] /\
  map arcs_of (constructed w) =
    [map arc_ids (declared_edges (run_trace w))] /\
  map (fun d => map (fun p => (fst p, fst (fst (snd p)))) (nodes_of d))
      (constructed w) =
    [map (fun n => (n_id n, n_label n)) (declared_nodes (run_trace w))] /\
  (ids_distinct w ->
   map shown_edges (constructed w) = [map edge_shown (edges_of w)] /\
   map (fun d =>
          filter (fun e => existsb (fun l => at_label l (fst (fst e)) || at_label l (snd (fst e)))
                             [prometheus_label; grafana_label])
            (shown_edges d))
       (constructed w) =
     [map edge_shown
        (map (fun pod => (prometheus_label, pod, scrape))
           [frontend_label; lines ["Catalogue"; "Service"];
            lines ["Carts"; "Service"]; lines ["Orders"; "Service"];
            payment_label; lines ["User"; "Service"]; shipping_label]
         ++ [(grafana_label, prometheus_label, dashed_purple)])]).
Proof.
  split; [run_script w; by_evaluation|].
  split; [run_script w; by_evaluation|].
  split; [run_script w; by_evaluation|].
  intros Hw.
  assert (Hshown : shown_edges (built w) = shown_edges sock_shop).
  { unfold shown_edges, built.
    rewrite nodes_of_rename, arcs_of_rename.
    apply resolve_rename;
      [apply relabel_inj_on, Hw | apply sock_shop_arcs_within]. }
  rewrite !constructed_built. cbn [map]. rewrite Hshown.
  split; [run_script w; by_evaluation | by_evaluation].
Qed.

Lemma monitoring_edges_exact_witness :
  ids_distinct (canonical true) /\
  map shown_edges (constructed (canonical true)) =
    [map edge_shown (edges_of (canonical true))].
Proof.
  assert (H : ids_distinct (canonical true))
    by (intros i j _ _ E; simpl in E; lia).
  split; [exact H|].
  apply (proj2 (proj2 (proj2 (monitoring_edges_exact (canonical true)))) H).
Defined.

(** ** Determinism *)

(** C3: two runs, whatever their arguments, environments, identifier
    supplies and backends, declare the same nodes in the same clusters and
    the same edges between them, and hand the backend one diagram each
    with the same settings, nodes, clusters and edge attributes, whose
    edge statements are the declared edges.  Node identifiers are drawn at
    random by the package and are left out of the comparison; when those
    of each run are distinct, the two diagrams show the same graph with
    every edge read between the labels of its ends. *)
Theorem construction_deterministic (w1 w2 : World) :
  map node_sig (declared_nodes (run_trace w1)) =
    map node_sig (declared_nodes (run_trace w2)) /\
  placements [] (run_trace w1) = placements [] (run_trace w2) /\
  edges_of w1 = edges_of w2 /\
  map settings (constructed w1) = map settings (constructed w2) /\
  map (fun d => (map snd (nodes_of d), map snd (arcs_of d), clusters_of d))
      (constructed w1) =
  map (fun d => (map snd (nodes_of d), map snd (arcs_of d), clusters_of d))
      (constructed w2) /\
  map arcs_of (constructed w1) = [map arc_ids (declared_edges (run_trace w1))] /\
  map arcs_of (constructed w2) = [map arc_ids (declared_edges (run_trace w2))] /\
  (ids_distinct w1 -> ids_distinct w2 ->
   map graph_view (constructed w1) = map graph_view (constructed w2)).
Proof.
  do 7 (split; [run_script w1; run_script w2; by_evaluation|]).
  intros H1 H2. rewrite !constructed_built. cbn [map]. unfold built.
  now rewrite !graph_view_rename
    by (apply relabel_inj_on; assumption) || apply sock_shop_arcs_within.
Qed.

Lemma construction_deterministic_witness :
  ids_distinct (canonical true) /\
  ids_distinct (mkWorld ["--fast"] [("HOME", "/root")]
                  (fun n => N.of_nat (2 * n + 7)) (fun _ => Some (BackendError "dot"))) /\
  map graph_view (constructed (canonical true)) =
  map graph_view
    (constructed (mkWorld ["--fast"] [("HOME", "/root")]
                    (fun n => N.of_nat (2 * n + 7)) (fun _ => Some (BackendError "dot")))).
Proof.
  assert (H1 : ids_distinct (canonical true))
    by (intros i j _ _ H; simpl in H; lia).
  assert (H2 : ids_distinct (mkWorld ["--fast"] [("HOME", "/root")]
                  (fun n => N.of_nat (2 * n + 7)) (fun _ => Some (BackendError "dot"))))
    by (intros i j _ _ H; simpl in H; lia).
  split; [exact H1|]. split; [exact H2|].
  apply (construction_deterministic _ _), H2. exact H1.
Defined.

(** ** Clusters *)

(** C5: the diagram handed to the backend has the clusters AWS Cloud,
    directly around VPC, directly around EKS Cluster; EKS Cluster lies
    around the three namespace clusters, directly around kube-system and,
    through the Worker Nodes cluster, around the sock-shop and monitoring
    namespaces; the three layer clusters lie directly inside the sock-shop
    namespace; and every node sits in the diagram inside exactly the
    clusters that are open when the script declares it. *)
Theorem clusters_nest_as_declared (w : World) :
  map clusters_of (constructed w) = [cluster_table] /\
  parent cluster_table "VPC (Terraform-managed)" = Some "AWS Cloud" /\
  parent cluster_table "EKS Cluster" = Some "VPC (Terraform-managed)" /\
  forallb (encloses cluster_table "EKS Cluster")
    ["kube-system"; "Namespace: sock-shop"; "Namespace: monitoring"] = true /\
  map (parent cluster_table)
    ["kube-system"; "Namespace: sock-shop"; "Namespace: monitoring"] =
    [Some "EKS Cluster"; Some "Worker Nodes"; Some "Worker Nodes"] /\
  map (parent cluster_table)
    ["Application Layer"; "Business Logic"; "Data Layer"] =
    repeat (Some "Namespace: sock-shop") 3 /\
  placements [] (run_trace w) = placement_table /\
  map (fun d => map (fun p => (fst (fst (snd p)), snd (snd p))) (nodes_of d))
    (constructed w) = [placement_table].
Proof.
  run_script w; repeat split; reflexivity.
Qed.

(** ** Running inside a diagram context *)

Lemma inside_ret {A} (x : A) : inside 0 (ret x).
Proof. intros w s H. cbn. rewrite Nat.add_0_r. tauto. Qed.

Lemma inside_bind {A B} (j k : nat) (m : M A) (f : A -> M B) :
  inside j m -> (forall x, inside k (f x)) -> inside (j + k) (bind m f).
Proof.
  intros Hm Hf w s H. unfold bind.
  destruct (Hm w s H) as (Hr & Hc & Hd & Hu & Ho & Hfi & Hcl).
  destruct (m w s) as [s1 [e|x]]; cbn [fst snd] in *; [discriminate|].
  destruct (Hf x w s1 Hc) as (Hr' & Hc' & Hd' & Hu' & Ho' & Hfi' & Hcl').
  repeat split; try assumption; try congruence. lia.
Qed.

Lemma inside_count {A} (j k : nat) (m : M A) : inside j m -> j = k -> inside k m.
Proof. now intros H <-. Qed.

Lemma add_to_diagram_frame (st : stmt) (s : State) :
  ctx_diagram s <> None ->
  ctx_diagram (add_to_diagram st s) <> None /\
  option_map settings (ctx_diagram (add_to_diagram st s)) =
    option_map settings (ctx_diagram s) /\
  uuid_calls (add_to_diagram st s) = uuid_calls s /\
  stdout (add_to_diagram st s) = stdout s /\
  files (add_to_diagram st s) = files s /\
  ctx_cluster (add_to_diagram st s) = ctx_cluster s /\
  trace (add_to_diagram st s) = trace s.
Proof.
  unfold add_to_diagram. destruct s as [[d|] cc n out fl tr]; cbn; [|tauto].
  intros _. repeat split; congruence.
Qed.

Lemma add_to_context_frame (st : stmt) (s : State) :
  ctx_diagram s <> None ->
  ctx_diagram (add_to_context st s) <> None /\
  option_map settings (ctx_diagram (add_to_context st s)) =
    option_map settings (ctx_diagram s) /\
  uuid_calls (add_to_context st s) = uuid_calls s /\
  stdout (add_to_context st s) = stdout s /\
  files (add_to_context st s) = files s /\
  map fst (ctx_cluster (add_to_context st s)) = map fst (ctx_cluster s).
Proof.
  intros H. unfold add_to_context.
  destruct (ctx_cluster s) as [|[l body] outer] eqn:E.
  - destruct (add_to_diagram_frame st s H) as (? & ? & ? & ? & ? & Hc & ?).
    rewrite Hc, E. tauto.
  - cbn. tauto.
Qed.

Lemma inside_Node (cls : NodeClass) (l : string) : inside 1 (Node cls l).
Proof.
  intros w s H. unfold Node. cbn [ctx_diagram].
  destruct (ctx_diagram s) as [d|] eqn:E; [|contradiction].
  cbn [fst snd succeeded].
  set (s1 := mkState _ _ _ _ _ _).
  assert (H1 : ctx_diagram s1 <> None) by (subst s1; cbn; congruence).
  destruct (add_to_context_frame (SNode (uuid4 w (uuid_calls s)) l cls) s1 H1)
    as (Hc & Hd & Hu & Ho & Hf & Hcl).
  unfold log. cbn. subst s1. cbn in *.
  repeat split; try assumption; try congruence. lia.
Qed.

Lemma inside_connect (a b : node) (e : edge) : inside 0 (connect a b e).
Proof.
  intros w s H. unfold connect. cbn [fst snd succeeded].
  destruct (add_to_diagram_frame (SEdge (n_id a) (n_id b) (attrs e)) s H)
    as (Hc & Hd & Hu & Ho & Hf & Hcl & _).
  unfold log. cbn. rewrite Nat.add_0_r.
  repeat split; try assumption; congruence.
Qed.

Lemma inside_with_Cluster {A} (k : nat) (l : string) (body : M A) :
  inside k body -> inside k (with_Cluster l body).
Proof.
  intros Hb w s H. unfold with_Cluster.
  destruct (ctx_diagram s) as [d|] eqn:E; [|contradiction].
  set (s1 := log _ _).
  assert (H1 : ctx_diagram s1 <> None) by (subst s1; cbn; congruence).
  destruct (Hb w s1 H1) as (Hr & Hc & Hd & Hu & Ho & Hf & Hcl).
  destruct (body w s1) as [s2 r]. cbn [fst snd] in *.
  subst s1. cbn in Hd, Hu, Ho, Hf, Hcl.
  unfold Cluster_exit.
  destruct (ctx_cluster s2) as [|[l' body'] outer] eqn:E2; [discriminate|].
  cbn in Hcl. injection Hcl as _ Hcl.
  set (s3 := set_cluster outer s2).
  assert (H3 : ctx_diagram s3 <> None) by (subst s3; cbn; exact Hc).
  destruct (add_to_context_frame (SSubgraph l' body') s3 H3)
    as (Hc' & Hd' & Hu' & Ho' & Hf' & Hcl').
  unfold log. cbn. subst s3. cbn in *.
  repeat split; try assumption; try congruence.
  rewrite Hd', Hd, E. reflexivity.
Qed.

Lemma inside_for_each {A} (l : list A) (f : A -> M unit) :
  (forall x, inside 0 (f x)) -> inside 0 (for_each l f).
Proof.
  intros Hf. induction l as [|x l IH]; cbn [for_each].
  - apply inside_ret.
  - apply (inside_bind 0 0); [apply Hf | intros _; exact IH].
Qed.

Lemma inside_connect_all (a : node) (e : edge) (l : list node) :
  inside 0 (for_each l (fun n => bind (connect a n e) (fun _ => ret tt))).
Proof.
  apply inside_for_each. intros n.
  apply (inside_bind 0 0); [apply inside_connect | intros _; apply inside_ret].
Qed.

(** The four shapes of edge statement in the script. *)
Lemma inside_node_node (a b : node) :
  inside 0 (rshift_chain (py (ONode a)) (ONode b)).
Proof.
  intros w s H.
  change (rshift_chain (py (ONode a)) (ONode b) w s)
    with (bind (connect a b (forward_edge a)) (fun r => ret (ONode r)) w s).
  revert w s H. apply (inside_bind 0 0); [apply inside_connect|].
  intros r. apply inside_ret.
Qed.

Lemma inside_node_list (a : node) (l : list node) :
  inside 0 (rshift_chain (py (ONode a)) (OList l)).
Proof.
  intros w s H.
  change (rshift_chain (py (ONode a)) (OList l) w s)
    with (bind (for_each l (fun n => bind (connect a n (forward_edge a))
                                       (fun _ => ret tt)))
               (fun _ => ret (OList l)) w s).
  revert w s H. apply (inside_bind 0 0); [apply inside_connect_all|].
  intros _. apply inside_ret.
Qed.

Lemma inside_node_edge_node (a b : node) (e : edge) :
  inside 0 (rshift_chain (rshift_chain (py (ONode a)) (OEdge e)) (ONode b)).
Proof.
  intros w s H.
  change (rshift_chain (rshift_chain (py (ONode a)) (OEdge e)) (ONode b) w s)
    with (bind (connect a b
                  (mkEdge (Some a) true (e_reverse e)
                     (e_label e) (e_color e) (e_style e)))
               (fun r => ret (ONode r)) w s).
  revert w s H. apply (inside_bind 0 0); [apply inside_connect|].
  intros r. apply inside_ret.
Qed.

Lemma inside_node_edge_list (a : node) (e : edge) (l : list node) :
  inside 0 (rshift_chain (rshift_chain (py (ONode a)) (OEdge e)) (OList l)).
Proof.
  intros w s H.
  change (rshift_chain (rshift_chain (py (ONode a)) (OEdge e)) (OList l) w s)
    with (bind (for_each l
                  (fun n => bind (connect a n
                                    (mkEdge (Some a) true (e_reverse e)
                                       (e_label e) (e_color e) (e_style e)))
                              (fun _ => ret tt)))
               (fun _ => ret (OList l)) w s).
  revert w s H. apply (inside_bind 0 0); [apply inside_connect_all|].
  intros _. apply inside_ret.
Qed.

(** One step of a proof of [inside], chosen by the shape of the code. *)
Ltac inside_step :=
  lazymatch goal with
  | |- inside _ (bind _ _) => eapply inside_bind; [|intros ?]
  | |- inside _ (ret _) => apply inside_ret
  | |- inside _ (with_Cluster _ _) => apply inside_with_Cluster
  | |- inside _ (Node _ _) => apply inside_Node
  | |- inside _ (rshift_chain (rshift_chain (py (ONode _)) (OEdge _)) (ONode _)) =>
      apply inside_node_edge_node
  | |- inside _ (rshift_chain (rshift_chain (py (ONode _)) (OEdge _)) (OList _)) =>
      apply inside_node_edge_list
  | |- inside _ (rshift_chain (py (ONode _)) (ONode _)) => apply inside_node_node
  | |- inside _ (rshift_chain (py (ONode _)) (OList _)) => apply inside_node_list
  | |- inside _ (match ?p with _ => _ end) => destruct p; cbv beta iota
  end.

(** [with Diagram] around code that runs inside the context: the frame is
    kept, and the block ends as the backend answers, with the Graphviz
    source left behind when it raises and removed when it succeeds. *)
Lemma with_Diagram_inside {A} (k : nat) (name : string)
    (kwargs : list diagram_kwarg) (body : M A) (d : diagram) :
  Diagram_init name kwargs = inr d ->
  inside k body ->
  forall w s,
    uuid_calls (fst (with_Diagram name kwargs body w s)) = uuid_calls s + k /\
    stdout (fst (with_Diagram name kwargs body w s)) = stdout s /\
    map fst (ctx_cluster (fst (with_Diagram name kwargs body w s))) =
      map fst (ctx_cluster s) /\
    exists d',
      settings d' = settings d /\
      match dot_render w d' with
      | Some e =>
          snd (with_Diagram name kwargs body w s) = inl e /\
          files (fst (with_Diagram name kwargs body w s)) =
            files s ++ [d_filename d'] /\
          ctx_diagram (fst (with_Diagram name kwargs body w s)) = Some d'
      | None =>
          succeeded (snd (with_Diagram name kwargs body w s)) = true /\
          files (fst (with_Diagram name kwargs body w s)) =
            filter (fun f => negb (String.eqb f (d_filename d')))
              (files s ++ [d_filename d'; image_file d']) /\
          ctx_diagram (fst (with_Diagram name kwargs body w s)) = None
      end.
Proof.
  intros Hinit Hb w s. unfold with_Diagram. rewrite Hinit.
  set (s1 := set_diagram _ _).
  assert (H1 : ctx_diagram s1 <> None) by (subst s1; cbn; congruence).
  destruct (Hb w s1 H1) as (Hr & Hc & Hd & Hu & Ho & Hf & Hcl).
  destruct (body w s1) as [s2 r]. cbn [fst snd] in *.
  subst s1. cbn in Hd, Hu, Ho, Hf, Hcl.
  destruct (ctx_diagram s2) as [d2|] eqn:E2; [|contradiction].
  assert (Hset : settings d2 = settings d).
  { cbn in Hd. unfold settings in *. cbn in Hd. congruence. }
  unfold render.
  destruct (dot_render w d2) as [e|] eqn:Er.
  - cbn. split; [exact Hu|]. split; [exact Ho|]. split; [exact Hcl|].
    exists d2. rewrite Er. split; [exact Hset|].
    rewrite Hf. now repeat split.
  - assert (Hshow : forall s0 : State,
      (if d_show d2 then log (EvView (image_file d2)) s0 else s0)
      = mkState (ctx_diagram s0) (ctx_cluster s0) (uuid_calls s0) (stdout s0)
          (files s0)
          (if d_show d2 then trace s0 ++ [EvView (image_file d2)] else trace s0)).
    { intros [cd cc n out fl tr]. destruct (d_show d2); reflexivity. }
    rewrite Hshow. cbn.
    split; [exact Hu|]. split; [exact Ho|]. split; [exact Hcl|].
    exists d2. rewrite Er. split; [exact Hset|].
    rewrite Hf, <- app_assoc. now repeat split.
Qed.

Lemma script_inside :
  exists body : M unit,
    create_architecture_diagram =
      with_Diagram title [show false; direction "TB"] body /\
    inside 25 body.
Proof.
  eexists. split; [reflexivity|].
  unfold Users, Route53, CertificateManager, ALB, EC2, EKS, Deployment,
    Ingress, Pod, Redis, MongoDB, MySQL, RabbitMQ, Prometheus, Grafana.
  eapply inside_count; [repeat inside_step | reflexivity].
Qed.

(** ** The declared graph *)

Lemma arrows_fixed (w : World) : arrows w = arrows (canonical true).
Proof. unfold arrows. run_script w; by_evaluation. Qed.

Lemma rank_reach (order : list string) (E : list (string * string)) (a b : string) :
  ascending order E = true -> reach E a b -> rank order a <= rank order b.
Proof.
  intros Hasc Hr. induction Hr as [|b c _ IH Hin]; [lia|].
  unfold ascending in Hasc. rewrite forallb_forall in Hasc.
  specialize (Hasc _ Hin). cbn [fst snd] in Hasc.
  apply Nat.ltb_lt in Hasc. lia.
Qed.

Lemma ascending_acyclic (order : list string) (E : list (string * string)) :
  ascending order E = true -> forall a, ~ on_cycle E a.
Proof.
  intros Hasc a [b [Hr Hin]].
  pose proof (rank_reach order E a b Hasc Hr) as Hle.
  unfold ascending in Hasc. rewrite forallb_forall in Hasc.
  specialize (Hasc _ Hin). cbn [fst snd] in Hasc.
  apply Nat.ltb_lt in Hasc. lia.
Qed.

Lemma distinctb_NoDup {A} (eqb : A -> A -> bool) (l : list A) :
  (forall x, eqb x x = true) -> distinctb eqb l = true -> NoDup l.
Proof.
  intros Hrefl. induction l as [|x l IH]; intros H; [constructor|].
  cbn in H. apply andb_prop in H as [Hx Hl].
  constructor; [|apply IH, Hl].
  intros Hin. apply negb_true_iff in Hx.
  assert (Hex : existsb (eqb x) l = true)
    by (apply existsb_exists; exists x; split; [exact Hin | apply Hrefl]).
  congruence.
Qed.

Lemma pair_eqb_refl (p : string * string) : pair_eqb p p = true.
Proof. unfold pair_eqb. now rewrite !String.eqb_refl. Qed.

Lemma memb_In (x : string) (l : list string) : memb x l = true <-> In x l.
Proof.
  unfold memb. rewrite existsb_exists. split.
  - intros [y [Hy E]]. apply String.eqb_eq in E. now subst.
  - intros H. exists x. split; [exact H | apply String.eqb_refl].
Qed.

Lemma closed_complete (E : list (string * string)) (C : list string) (a x : string) :
  closed_under E C = true -> In a C -> reach E a x -> In x C.
Proof.
  intros Hc Ha Hr. induction Hr as [|b c _ IH Hin]; [exact Ha|].
  unfold closed_under in Hc. rewrite forallb_forall in Hc.
  specialize (Hc _ Hin). cbn [fst snd] in Hc.
  apply memb_In in IH. rewrite IH in Hc. now apply memb_In.
Qed.

Lemma grow_sound (E : list (string * string)) (a : string) (seen : list string) :
  (forall x, In x seen -> reach E a x) ->
  forall x, In x (grow E seen) -> reach E a x.
Proof.
  intros HS x Hx. unfold grow in Hx. apply in_app_or in Hx as [Hx|Hx].
  - now apply HS.
  - apply in_map_iff in Hx as [[b c] [<- Hbc]].
    apply filter_In in Hbc as [Hin Hb]. cbn [fst snd] in *.
    apply reach_step with b; [apply HS; now apply memb_In | exact Hin].
Qed.

Lemma closure_sound (E : list (string * string)) (a : string) (n : nat) :
  forall seen, (forall x, In x seen -> reach E a x) ->
               forall x, In x (closure E n seen) -> reach E a x.
Proof.
  induction n as [|n IH]; intros seen HS x Hx; cbn [closure] in Hx.
  - now apply HS.
  - apply (IH (grow E seen)); [apply grow_sound, HS | exact Hx].
Qed.

(** X1: the declared edges form a graph without cycle (in particular no
    node is joined to itself) in which no edge is declared twice. *)
Theorem declared_graph_acyclic (w : World) :
  (forall a, ~ on_cycle (arrows w) a) /\ NoDup (arrows w).
Proof.
  rewrite arrows_fixed. split.
  - apply (ascending_acyclic downstream_order). by_evaluation.
  - apply (distinctb_NoDup pair_eqb); [apply pair_eqb_refl | by_evaluation].
Qed.

(** X2: following declared edges from the Users node one reaches exactly
    Route53, the load balancer, the ingress, the frontend, the six
    services it fans out to, and the five data stores behind them; the
    queue master and RabbitMQ, the monitoring nodes, the controllers and
    the control plane are not reachable from it. *)
Theorem reachable_from_users (w : World) (x : string) :
  reach (arrows w) "Users" x <-> In x request_path.
Proof.
  rewrite arrows_fixed. split.
  - apply closed_complete; [by_evaluation | left; reflexivity].
  - intros Hx.
    apply (closure_sound (arrows (canonical true)) "Users" 6 ["Users"]).
    + intros y [<-|[]]. constructor.
    + apply memb_In.
      assert (Hall : forallb (fun y => memb y (closure (arrows (canonical true)) 6 ["Users"]))
                       request_path = true) by by_evaluation.
      rewrite forallb_forall in Hall. apply Hall, Hx.
Qed.

(** X3: no two nodes of the script carry the same label, and no two
    clusters of the diagram handed to the backend carry the same label. *)
Theorem labels_distinct (w : World) :
  NoDup (map n_label (declared_nodes (run_trace w))) /\
  Forall (fun d => NoDup (map (fun p => last p EmptyString) (clusters_of d)))
    (constructed w).
Proof.
  split.
  - apply (distinctb_NoDup String.eqb); [apply String.eqb_refl|].
    run_script w; by_evaluation.
  - rewrite constructed_built. constructor; [|constructor].
    unfold built. rewrite clusters_of_rename.
    apply (distinctb_NoDup String.eqb); [apply String.eqb_refl | by_evaluation].
Qed.

(** X9: every data store is the target of exactly one declared edge, from
    the frontend to the session store, from the catalogue, carts, orders
    and user services to their databases and from the queue master to
    RabbitMQ, and is the source of none. *)
Theorem data_stores_owned (w : World) :
  map (fun l => map fst (filter (to l) (edges_of w))) data_stores =
    [ [(frontend_label, lines ["Session DB"; "(Redis)"])];
      [(lines ["Carts"; "Service"], "Carts DB")];
      [(lines ["User"; "Service"], "User DB")];
      [(lines ["Catalogue"; "Service"], lines ["Catalogue DB"; "(MySQL / RDS)"])];
      [(lines ["Orders"; "Service"], "Orders DB")];
      [(lines ["Queue"; "Master"], "RabbitMQ")] ] /\
  flat_map (fun l => filter (from l) (edges_of w)) data_stores = [].
Proof.
  run_script w; split; by_evaluation.
Qed.

(** ** Order of construction *)

(** X4: in every run the cluster blocks open and close like brackets, all
    of them are closed before the first edge is declared, and from the
    first edge on no node or cluster is declared any more. *)
Theorem nodes_and_clusters_before_edges (w : World) :
  well_nested [] (run_trace w) = true /\
  existsb declares_node_or_cluster (from_first_connect (run_trace w)) = false /\
  List.length (filter declares_node_or_cluster (run_trace w)) = 45 /\
  List.length (declared_edges (run_trace w)) = 29.
Proof.
  run_script w; repeat split; by_evaluation.
Qed.

(** ** The function called from any state *)

Lemma title_init :
  Diagram_init title [show false; direction "TB"] =
  inr (mkDiagram title "sock_shop_microservices_architecture_(improved)"
         "TB" "png" false []).
Proof. by_evaluation. Qed.

(** X5: from any state and in any world (called first or again, with or
    without a diagram or clusters open around the call) the function
    prints nothing, draws twenty-five identifiers and leaves the nesting
    of the open clusters as it found it.  When it returns normally the
    image has been added to the files and no file of the Graphviz
    source's name is left; when it raises, the Graphviz source has been
    added and stays, and there is no new image. *)
Theorem create_keeps_frame (w : World) (s : State) :
  stdout (fst (create_architecture_diagram w s)) = stdout s /\
  uuid_calls (fst (create_architecture_diagram w s)) = uuid_calls s + 25 /\
  map fst (ctx_cluster (fst (create_architecture_diagram w s))) =
    map fst (ctx_cluster s) /\
  files (fst (create_architecture_diagram w s)) =
    (if succeeded (snd (create_architecture_diagram w s))
     then filter (fun f => negb (String.eqb f
                    "sock_shop_microservices_architecture_(improved)"))
            (files s)
          ++ ["sock_shop_microservices_architecture_(improved).png"]
     else files s ++ ["sock_shop_microservices_architecture_(improved)"]).
Proof.
  destruct script_inside as [body [-> Hb]].
  destruct (with_Diagram_inside 25 _ _ body _ title_init Hb w s)
    as (Hu & Ho & Hcl & d' & Hset & Hr).
  split; [exact Ho|]. split; [exact Hu|]. split; [exact Hcl|].
  assert (Hsrc : d_filename d' =
                 "sock_shop_microservices_architecture_(improved)").
  { unfold settings in Hset. cbn in Hset. now injection Hset as _ -> _ _ _. }
  assert (Himg : image_file d' =
                 "sock_shop_microservices_architecture_(improved).png").
  { unfold image_file. unfold settings in Hset. cbn in Hset.
    injection Hset as _ -> _ -> _. reflexivity. }
  destruct (dot_render w d') as [e|].
  - destruct Hr as (-> & Hf & _). rewrite Hf, Hsrc. reflexivity.
  - destruct Hr as (Hs & Hf & _). rewrite Hs, Hf, Himg, Hsrc.
    rewrite filter_app. reflexivity.
Qed.

(** X6: from any state, the function raises only what the backend raised
    on a diagram with the script's title and settings, and then that
    diagram is still the context; when it returns normally no diagram is
    the context any more, whatever was the context before the call. *)
Theorem create_fails_only_with_backend (w : World) (s : State) :
  (forall e, snd (create_architecture_diagram w s) = inl e ->
     exists d,
       settings d =
         (title, "sock_shop_microservices_architecture_(improved)",
          "TB", "png", false) /\
       dot_render w d = Some e /\
       ctx_diagram (fst (create_architecture_diagram w s)) = Some d) /\
  (succeeded (snd (create_architecture_diagram w s)) = true ->
     ctx_diagram (fst (create_architecture_diagram w s)) = None).
Proof.
  destruct script_inside as [body [-> Hb]].
  destruct (with_Diagram_inside 25 _ _ body _ title_init Hb w s)
    as (_ & _ & _ & d' & Hset & Hr).
  destruct (dot_render w d') as [e'|] eqn:Er.
  - destruct Hr as (Hs & _ & Hc). split.
    + intros e He. rewrite Hs in He. injection He as <-.
      exists d'. now repeat split.
    + rewrite Hs. discriminate.
  - destruct Hr as (Hs & _ & Hc). split.
    + intros e He. rewrite He in Hs. discriminate.
    + intros _. exact Hc.
Qed.

Lemma create_fails_only_with_backend_witness :
  snd (create_architecture_diagram (canonical false) initial)
    = inl (BackendError "dot") /\
  exists d,
    dot_render (canonical false) d = Some (BackendError "dot") /\
    ctx_diagram (fst (create_architecture_diagram (canonical false) initial))
      = Some d.
Proof.
  assert (H : snd (create_architecture_diagram (canonical false) initial)
              = inl (BackendError "dot")) by by_evaluation.
  split; [exact H|].
  destruct (proj1 (create_fails_only_with_backend (canonical false) initial)
              (BackendError "dot") H) as [d [_ Hd]].
  exists d. exact Hd.
Defined.

(** ** Calling the function again *)

Lemma create_cases (w : World) :
  create_architecture_diagram w initial =
  match dot_render w (built w) with
  | None => (rename_state (relabel w) created_ok, inr tt)
  | Some e => (rename_state (relabel w) final_failed, inl e)
  end.
Proof.
  destruct w as [av en uu dr]. vm_compute. destruct (dr _); reflexivity.
Qed.

(** X7: when a caller generates twice and both calls return, the backend
    has been handed two diagrams with the same settings, nodes, clusters
    and edge attributes, each call having declared the script's edges once
    (the second call does not add to what the first built), the first with the identifiers drawn first to twenty-fifth and
    the second with the twenty-sixth to fiftieth, and the same file name
    has been written twice. *)
Theorem second_call_starts_afresh (w : World) :
  succeeded (snd (generate_twice w initial)) = true ->
  map outline (rendered (trace (fst (generate_twice w initial)))) =
    [outline sock_shop; outline sock_shop] /\
  map (fun d => map fst (nodes_of d))
      (rendered (trace (fst (generate_twice w initial)))) =
    [map (uuid4 w) (seq 0 25); map (uuid4 w) (seq 25 25)] /\
  map edge_sig (declared_edges (trace (fst (generate_twice w initial)))) =
    edges_of (canonical true) ++ edges_of (canonical true) /\
  files (fst (generate_twice w initial)) =
    repeat "sock_shop_microservices_architecture_(improved).png" 2 /\
  stdout (fst (generate_twice w initial)) = [].
Proof.
  unfold generate_twice, bind. rewrite create_cases.
  destruct (dot_render w (built w)); [intros H; discriminate H|].
  destruct w as [av en uu dr]. vm_compute.
  destruct (dr _); intros H; [discriminate H|].
  repeat split.
Qed.

Lemma second_call_starts_afresh_witness :
  succeeded (snd (generate_twice (canonical true) initial)) = true /\
  files (fst (generate_twice (canonical true) initial)) =
    repeat "sock_shop_microservices_architecture_(improved).png" 2.
Proof.
  assert (H : succeeded (snd (generate_twice (canonical true) initial)) = true)
    by by_evaluation.
  split; [exact H|].
  apply (second_call_starts_afresh (canonical true) H).
Defined.

(** ** File names *)

Lemma any_char_append (p : ascii -> bool) (a b : string) :
  any_char p (a ++ b)%string = any_char p a || any_char p b.
Proof.
  induction a as [|c a IH]; cbn; [reflexivity|].
  now rewrite IH, orb_assoc.
Qed.

Lemma flush_clean (cur : string) (k : list string) :
  any_char PyStr.isspace cur = false ->
  Forall (fun wd => any_char PyStr.isspace wd = false) k ->
  Forall (fun wd => any_char PyStr.isspace wd = false) (PyStr.flush cur k).
Proof.
  intros Hc Hk. destruct cur; cbn; [exact Hk | now constructor].
Qed.

Lemma split_from_clean (s : string) :
  forall cur,
    any_char PyStr.isspace cur = false ->
    Forall (fun wd => any_char PyStr.isspace wd = false) (PyStr.split_from cur s).
Proof.
  induction s as [|c s IH]; intros cur Hc; cbn [PyStr.split_from].
  - now apply flush_clean.
  - destruct (PyStr.isspace c) eqn:Ec.
    + apply flush_clean; [exact Hc | now apply IH].
    + apply IH. rewrite any_char_append, Hc. cbn. now rewrite Ec.
Qed.

Lemma concat_clean (sep : string) (words : list string) :
  any_char PyStr.isspace sep = false ->
  Forall (fun wd => any_char PyStr.isspace wd = false) words ->
  any_char PyStr.isspace (String.concat sep words) = false.
Proof.
  intros Hsep Hw. induction Hw as [|wd words Hwd Hws IH]; [reflexivity|].
  cbn [String.concat]. destruct words as [|wd' words]; [exact Hwd|].
  now rewrite !any_char_append, Hwd, Hsep, IH.
Qed.

Lemma isspace_lower_char (c : ascii) :
  PyStr.isspace (PyStr.lower_char c) = PyStr.isspace c.
Proof. destruct c as [[] [] [] [] [] [] [] []]; reflexivity. Qed.

Lemma lower_clean (s : string) :
  any_char PyStr.isspace (PyStr.lower s) = any_char PyStr.isspace s.
Proof.
  induction s as [|c s IH]; cbn; [reflexivity|].
  now rewrite isspace_lower_char, IH.
Qed.

(** X8: whatever title a diagram is given (any text of code points below
    256, the strings of the model), the file name the package derives
    from it contains no whitespace character, U+0085 and U+00A0 included;
    the name stated on line 114 has a blank, so no such title makes the
    confirmation state the image's name. *)
Theorem stated_name_fits_no_title (name : string) :
  any_char PyStr.isspace (default_filename name) = false /\
  quoted confirmation <> Some (default_filename name ++ ".png")%string.
Proof.
  assert (Hclean : any_char PyStr.isspace (default_filename name) = false).
  { unfold default_filename. destruct (PyStr.truthy name); [|reflexivity].
    rewrite lower_clean. apply concat_clean; [reflexivity|].
    now apply split_from_clean. }
  split; [exact Hclean|].
  intros H.
  assert (Hq : option_map (any_char PyStr.isspace) (quoted confirmation) = Some true)
    by by_evaluation.
  rewrite H in Hq. cbn [option_map] in Hq.
  rewrite any_char_append, Hclean in Hq. discriminate Hq.
Qed.
